(** * Camera extraction scripts: the date-resolution-and-naming pipeline

    A shallow embedding of [process_camera_data.py]: the two timestamp
    resolvers ([get_photo_datetime], [get_video_datetime]), the sequence
    namer ([generate_name_with_counter]), the photo copier, the video
    converter, the dispatcher ([process_file]) and the tree walker.

    Python text is modelled by [string], a sequence of code points below
    256; [bytes] by [list byte]; the unbounded [int] counters by [nat].
    The module-level [date_counters] dictionary and everything the script
    prints are threaded through an explicit state; exceptions are values
    of a sum type.  The operating system, [piexif], [ffprobe], [ffmpeg]
    and the parsers of the [datetime] module are collaborators, given as
    a record of oracles. *)

From Stdlib Require Import Ascii String List Arith Lia ZArith.
From Stdlib Require Import Strings.Byte.
From Stdlib Require Import Sorting.Sorted.
From stdpp Require Import base gmap strings list.

Local Open Scope string_scope.
Local Open Scope list_scope.

(** ** Text helpers *)

Module Text.

(** [c * n] for a one-character string [c]. *)
Fixpoint replicate (n : nat) (c : ascii) : string :=
  match n with
  | 0 => ""
  | S n' => String c (replicate n' c)
  end.

(** [all p s]: every character of [s] satisfies [p]. *)
Fixpoint all (p : ascii -> bool) (s : string) : bool :=
  match s with
  | "" => true
  | String c s' => p c && all p s'
  end.

(** [starts_with p s]: [s] is non-empty and its first character
    satisfies [p]. *)
Definition starts_with (p : ascii -> bool) (s : string) : bool :=
  match s with
  | "" => false
  | String c _ => p c
  end.

(** The longest prefix of characters satisfying [p], and the rest. *)
Fixpoint span (p : ascii -> bool) (s : string) : string * string :=
  match s with
  | "" => ("", "")
  | String c s' =>
      if p c then let '(a, b) := span p s' in (String c a, b)
      else ("", s)
  end.

(** [str.endswith]. *)
Fixpoint ends_with (suffix s : string) : bool :=
  if String.eqb s suffix then true
  else match s with
       | "" => false
       | String _ s' => ends_with suffix s'
       end.

End Text.

(** ** Decimal formatting

    [format_d n] is Python's [format(n, "d")] for a non-negative [int];
    [format_0wd w n] is [format(n, "0wd")], as in the f-string field
    [{counter:03d}]: zeros are added on the left up to width [w], and a
    longer number is left as it is. *)

Module Fmt.
Import Text.

Definition digit_char (n : nat) : ascii :=
  match n with
  | 0 => "0" | 1 => "1" | 2 => "2" | 3 => "3" | 4 => "4"
  | 5 => "5" | 6 => "6" | 7 => "7" | 8 => "8" | _ => "9"
  end%char.

Definition is_digit (c : ascii) : bool :=
  match Ascii.is_nat c with
  | Some _ => true
  | None => false
  end.

Fixpoint format_d_go (fuel n : nat) (acc : string) : string :=
  match fuel with
  | 0 => acc
  | S fuel' =>
      let acc' := String (digit_char (n mod 10)) acc in
      match n / 10 with
      | 0 => acc'
      | S q => format_d_go fuel' (S q) acc'
      end
  end.

Definition format_d (n : nat) : string := format_d_go (S n) n "".

Definition format_0wd (w n : nat) : string :=
  let s := format_d n in
  replicate (w - String.length s) "0" +:+ s.

(** Reading a run of decimal digits back, most significant first. *)
Fixpoint parse_nat_from (a : nat) (s : string) : nat :=
  match s with
  | "" => a
  | String c s' => parse_nat_from (10 * a + default 0 (Ascii.is_nat c)) s'
  end.

Definition parse_nat : string -> nat := parse_nat_from 0.

End Fmt.

(** ** The Python library functions the script calls on text and paths *)

Module Py.
Import Text.

(** [str.isspace] on one code point below 256. *)
Definition is_space (c : ascii) : bool :=
  match c with
  | "009" | "010" | "011" | "012" | "013"
  | "028" | "029" | "030" | "031" | " " | "133" | "160" => true
  | _ => false
  end%char.

Fixpoint lstrip (s : string) : string :=
  match s with
  | "" => ""
  | String c s' => if is_space c then lstrip s' else s
  end.

Fixpoint rstrip (s : string) : string :=
  match s with
  | "" => ""
  | String c s' =>
      let r := rstrip s' in
      if is_space c && String.eqb r "" then "" else String c r
  end.

(** [str.strip()] *)
Definition strip (s : string) : string := rstrip (lstrip s).

(** [str.lower()] on one code point below 256: the letters [A]-[Z] and
    the Latin-1 capitals, the multiplication sign excepted. *)
Definition lower_char (c : ascii) : ascii :=
  let n := nat_of_ascii c in
  if ((65 <=? n) && (n <=? 90))%nat then ascii_of_nat (n + 32)
  else if ((192 <=? n) && (n <=? 222) && negb (n =? 215))%nat
       then ascii_of_nat (n + 32)
  else c.

(** [str.lower()] *)
Fixpoint lower (s : string) : string :=
  match s with
  | "" => ""
  | String c s' => String (lower_char c) (lower s')
  end.

(** [s.replace(old, new)] for a pattern [old] of one character. *)
Fixpoint replace (old : ascii) (new : string) (s : string) : string :=
  match s with
  | "" => ""
  | String c s' =>
      if Ascii.eqb c old then new +:+ replace old new s'
      else String c (replace old new s')
  end.

(** [s.rfind(c)]: the last index of [c], or -1. *)
Fixpoint rfind_from (c : ascii) (s : string) (i : Z) (last : Z) : Z :=
  match s with
  | "" => last
  | String d s' => rfind_from c s' (i + 1) (if Ascii.eqb d c then i else last)
  end.

Definition rfind (c : ascii) (s : string) : Z := rfind_from c s 0 (-1).

(** [s[n:]] *)
Fixpoint drop (n : nat) (s : string) : string :=
  match n, s with
  | 0, _ => s
  | S n', String _ s' => drop n' s'
  | S _, "" => ""
  end.

(** The loop of [genericpath._splitext] that skips the leading dots of a
    file name: from index [filenameIndex], is there a character other than
    a dot before [dotIndex]?  [count] is [dotIndex - filenameIndex]. *)
Fixpoint has_name_before_dot (p : string) (count : nat) : bool :=
  match count, p with
  | S count', String c p' =>
      if negb (Ascii.eqb c ".") then true else has_name_before_dot p' count'
  | _, _ => false
  end.

(** [os.path.splitext(p)[1]] on POSIX. *)
Definition splitext_ext (p : string) : string :=
  let sepIndex := rfind "/" p in
  let dotIndex := rfind "." p in
  if (sepIndex <? dotIndex)%Z then
    let filenameIndex := Z.to_nat (sepIndex + 1) in
    if has_name_before_dot (drop filenameIndex p)
         (Z.to_nat dotIndex - filenameIndex)
    then drop (Z.to_nat dotIndex) p
    else ""
  else "".

(** [os.path.join(a, b)] on POSIX. *)
Definition path_join (a b : string) : string :=
  if String.prefix "/" b then b
  else if String.eqb a "" || ends_with "/" a then a +:+ b
  else a +:+ "/" +:+ b.

(** The characters [shlex.quote] leaves alone: [[A-Za-z0-9_@%+=:,./-]]. *)
Definition is_shell_safe (c : ascii) : bool :=
  let n := nat_of_ascii c in
  ((65 <=? n) && (n <=? 90))%nat || ((97 <=? n) && (n <=? 122))%nat
  || ((48 <=? n) && (n <=? 57))%nat
  || existsb (Ascii.eqb c)
       ["_"; "@"; "%"; "+"; "="; ":"; ","; "."; "/"; "-"]%char.

Definition squote : string := String "'" "".
Definition dquote : string := String (ascii_of_nat 34) "".

(** [shlex.quote(s)] *)
Definition shlex_quote (s : string) : string :=
  if String.eqb s "" then squote +:+ squote
  else if all is_shell_safe s then s
  else squote
       +:+ replace "'" (squote +:+ dquote +:+ squote +:+ dquote +:+ squote) s
       +:+ squote.

End Py.

(** ** Data model *)

(** A [datetime.datetime] value; [utcoffset] is [None] for a naive value
    and the offset east of UTC, in minutes, for an aware one. *)
Record datetime := mkDatetime {
  year : nat;
  month : nat;
  day : nat;
  hour : nat;
  minute : nat;
  second : nat;
  microsecond : nat;
  utcoffset : option Z
}.

Global Instance datetime_eq_dec : EqDecision datetime.
Proof. solve_decision. Defined.

(** The calendar date of a [datetime]. *)
Definition date_of (dt : datetime) : nat * nat * nat :=
  (year dt, month dt, day dt).

(** [dt.strftime("%Y_%m_%d")]: the year on four digits, month and day on
    two, as the [datetime] documentation gives them. *)
Definition strftime_Y_m_d (dt : datetime) : string :=
  Fmt.format_0wd 4 (year dt) +:+ "_" +:+ Fmt.format_0wd 2 (month dt)
  +:+ "_" +:+ Fmt.format_0wd 2 (day dt).

(** The exception classes that matter to the [except] clauses of the
    script; all of them derive from [Exception].  [UnicodeDecodeError]
    derives from [ValueError]. *)
Inductive exn_class :=
  | OSError
  | CalledProcessError
  | ValueError
  | UnicodeDecodeError
  | KeyError
  | AttributeError
  | OtherError.

Global Instance exn_class_eq_dec : EqDecision exn_class.
Proof. solve_decision. Defined.

(** An exception: its class and [str(e)]. *)
Record exn := Exn { exn_cls : exn_class; exn_str : string }.

Global Instance exn_eq_dec : EqDecision exn.
Proof. solve_decision. Defined.

(** [isinstance(e, c)] *)
Definition isinstance (e : exn) (c : exn_class) : bool :=
  match c, exn_cls e with
  | ValueError, UnicodeDecodeError => true
  | c, c' => bool_decide (c = c')
  end.

(** The result of a call that may raise. *)
Definition result (A : Type) : Type := exn + A.

(** A value stored under an EXIF tag. *)
Inductive exif_value :=
  | Exif_bytes (b : list byte)
  | Exif_int (n : Z)
  | Exif_tuple (l : list Z).

(** Python truth of such a value, as tested by [if date_str:]. *)
Definition truthy (v : exif_value) : bool :=
  match v with
  | Exif_bytes [] => false
  | Exif_int 0%Z => false
  | Exif_tuple [] => false
  | _ => true
  end.

(** [piexif.ImageIFD.DateTime] *)
Definition ImageIFD_DateTime : N := 306%N.

(** The file modification time [os.path.getmtime] returns; the script only
    hands it on to [datetime.fromtimestamp]. *)
Definition timestamp := Z.

(** The collaborators: the file system, the EXIF reader, the subprocess
    layer and the parsers of the standard library.  Each oracle answers
    with a value or with the exception it raises. *)
Record World := mkWorld {
  getmtime : string -> result timestamp;
  fromtimestamp : timestamp -> result datetime;
  piexif_load : string -> result (gmap string (gmap N exif_value));
  bytes_decode : list byte -> result string;
  strptime : string -> string -> result datetime;
  fromisoformat : string -> result datetime;
  check_output : string -> result (list byte);
  subprocess_run : list string -> result unit;
  copy2 : string -> string -> result unit;
  path_exists : string -> bool;
  makedirs : string -> result unit;
  walk : string -> list (string * list string * list string)
}.

(** What the run has done to the outside: every attempt to write a file,
    with its outcome. *)
Inductive event :=
  | Ev_copy2 (src dst : string) (ok : bool)
  | Ev_run (cmd : list string) (ok : bool)
  | Ev_makedirs (path : string) (ok : bool).

(** The state of a run: the module-level [date_counters], the lines
    printed so far and the events so far. *)
Record state := mkState {
  date_counters : gmap string nat;
  stdout : list string;
  trace : list event
}.

Definition initial_state : state := mkState ∅ [] [].

(** ** Computations: state and exceptions *)

Definition M (A : Type) : Type := state -> result A * state.

Definition ret {A} (a : A) : M A := fun s => (inr a, s).

Definition bind {A B} (m : M A) (k : A -> M B) : M B :=
  fun s =>
    match m s with
    | (inl e, s') => (inl e, s')
    | (inr a, s') => k a s'
    end.

(** [try: body / except Exception as e: handler e]; a handler that does
    not take [e] re-raises it.  What [body] did to the state before it
    raised stays done. *)
Definition try_except {A} (body : M A) (handler : exn -> M A) : M A :=
  fun s =>
    match body s with
    | (inl e, s') => handler e s'
    | (inr a, s') => (inr a, s')
    end.

Definition raise {A} (e : exn) : M A := fun s => (inl e, s).

(** A call to a collaborator. *)
Definition call {A} (r : result A) : M A := fun s => (r, s).

Definition print (line : string) : M unit :=
  fun s => (inr tt, mkState (date_counters s) (stdout s ++ [line]) (trace s)).

(** A call that writes: the attempt is recorded with its outcome. *)
Definition call_logged (r : result unit) (ev : bool -> event) : M unit :=
  fun s =>
    let ok := match r with inr _ => true | inl _ => false end in
    (r, mkState (date_counters s) (stdout s) (trace s ++ [ev ok])).

Declare Scope py_scope.
Delimit Scope py_scope with py.
Notation "x <- m ;; k" := (bind m (fun x => k))
  (at level 100, m at next level, right associativity) : py_scope.
Notation "m ;;; k" := (bind m (fun _ => k))
  (at level 100, right associativity) : py_scope.
Local Open Scope py_scope.

(** [for x in l: body x] *)
Fixpoint for_each {A} (l : list A) (body : A -> M unit) : M unit :=
  match l with
  | [] => ret tt
  | x :: l' => body x ;;; for_each l' body
  end.

(** ** The script *)

Definition PHOTO_EXTENSIONS : gset string := {[ ".jpg"; ".jpeg"; ".png" ]}.

Definition VIDEO_EXTENSIONS : gset string :=
  {[ ".mp4"; ".mkv"; ".avi"; ".mov"; ".wmv"; ".flv"; ".webm"; ".mpg";
     ".mpeg"; ".m4v"; ".3gp"; ".3g2"; ".ts"; ".mts"; ".m2ts"; ".vob" ]}.

(** [date_counters[k]] on a [defaultdict(int)]: a missing key is created
    at 0 by the read. *)
Definition counters_get (k : string) : M nat :=
  fun s =>
    match date_counters s !! k with
    | Some v => (inr v, s)
    | None => (inr 0, mkState (<[k := 0]> (date_counters s)) (stdout s) (trace s))
    end.

(** [date_counters[k] = v] *)
Definition counters_set (k : string) (v : nat) : M unit :=
  fun s => (inr tt, mkState (<[k := v]> (date_counters s)) (stdout s) (trace s)).

(** [value.decode()] on what was found under the tag: only [bytes] has
    the method. *)
Definition decode_value (decode : list byte -> result string)
    (v : exif_value) : result string :=
  match v with
  | Exif_bytes b => decode b
  | Exif_int _ => inl (Exn AttributeError "'int' object has no attribute 'decode'")
  | Exif_tuple _ => inl (Exn AttributeError "'tuple' object has no attribute 'decode'")
  end.

(** [d[k]] on a plain [dict]. *)
Definition dict_getitem {V} (d : gmap string V) (k : string) : result V :=
  match d !! k with
  | Some v => inr v
  | None => inl (Exn KeyError (Py.squote +:+ k +:+ Py.squote))
  end.

Section Script.

Variable W : World.

(** The module-level constant [MODE]: "photo", "video" or "both". *)
Variable MODE : string.

Definition ensure_dir (path : string) : M unit :=
  if negb (path_exists W path)
  then call_logged (makedirs W path) (Ev_makedirs path)
  else ret tt.

Definition photo_warning_invalid (path : string) (e : exn) : string :=
  "Warning: Invalid EXIF data in photo " +:+ path
  +:+ ". Falling back to mtime. Error: " +:+ exn_str e.

Definition photo_warning_general (path : string) (e : exn) : string :=
  "Warning: General error reading EXIF from photo " +:+ path
  +:+ ". Falling back to mtime. Error: " +:+ exn_str e.

(** The exception raised by looking up a name the module [piexif] does
    not have. *)
Definition piexif_AttributeError : exn :=
  Exn AttributeError "module 'piexif' has no attribute 'Invalidbox'".

(** [piexif.Invalidbox], the expression of the first [except] clause:
    [piexif] exports one exception class, [InvalidImageDataError], and
    nothing called [Invalidbox], so the lookup raises. *)
Definition piexif_Invalidbox : result exn_class := inl piexif_AttributeError.

(** The [try] block returns from the function when it finds a date
    ([Some]); otherwise control reaches the final [return fallback_dt].
    The expression of an [except] clause is evaluated when an exception
    arrives at it; when that evaluation raises, the new exception leaves
    the function and the clauses below are not tried. *)
Definition get_photo_datetime (path : string) : M datetime :=
  ts <- call (getmtime W path) ;;
  fallback_dt <- call (fromtimestamp W ts) ;;
  found <- try_except
    (exif_dict <- call (piexif_load W path) ;;
     ifd <- call (dict_getitem exif_dict "0th") ;;
     match ifd !! ImageIFD_DateTime with
     | Some date_str =>
         if truthy date_str then
           text <- call (decode_value (bytes_decode W) date_str) ;;
           dt <- call (strptime W text "%Y:%m:%d %H:%M:%S") ;;
           ret (Some dt)
         else ret None
     | None => ret None
     end)
    (fun e =>
       match piexif_Invalidbox with
       | inl err => raise err
       | inr cls =>
           if isinstance e cls
           then print (photo_warning_invalid path e) ;;; ret None
           else print (photo_warning_general path e) ;;; ret None
       end) ;;
  match found with
  | Some dt => ret dt
  | None => ret fallback_dt
  end.

Definition creation_time_probe_cmd (path : string) : string :=
  "ffprobe -v error -select_streams v:0 -show_entries format_tags=creation_time "
  +:+ "-of default=noprint_wrappers=1:nokey=1 " +:+ Py.shlex_quote path.

Definition video_warning_parse (creation_time_str : string) : string :=
  "Warning: Could not parse video creation time '" +:+ creation_time_str
  +:+ "'. Using mtime.".

Definition video_warning_probe (path : string) (e : exn) : string :=
  "Warning: Error during ffprobe for video " +:+ path +:+ ": " +:+ exn_str e
  +:+ ". Falling back to mtime.".

Definition get_video_datetime (path : string) : M datetime :=
  ts <- call (getmtime W path) ;;
  fallback_dt <- call (fromtimestamp W ts) ;;
  let probe_cmd := creation_time_probe_cmd path in
  found <- try_except
    (out <- call (check_output W probe_cmd) ;;
     text <- call (bytes_decode W out) ;;
     let creation_time_str := Py.strip text in
     if negb (String.eqb creation_time_str "") then
       try_except
         (dt <- call (fromisoformat W (Py.replace "Z" "+00:00" creation_time_str)) ;;
          ret (Some dt))
         (fun e =>
            if isinstance e ValueError
            then print (video_warning_parse creation_time_str) ;;; ret None
            else raise e)
     else ret None)
    (fun e =>
       if isinstance e CalledProcessError then ret None
       else print (video_warning_probe path e) ;;; ret None) ;;
  match found with
  | Some dt => ret dt
  | None => ret fallback_dt
  end.

Definition generate_name_with_counter (dt : datetime) (ext : string) : M string :=
  let date_str := strftime_Y_m_d dt in
  old <- counters_get date_str ;;
  counters_set date_str (old + 1) ;;;
  counter <- counters_get date_str ;;
  ret (date_str +:+ "_" +:+ Fmt.format_0wd 3 counter +:+ ext).

Definition copy_photo (src dst_dir : string) : M string :=
  dt <- get_photo_datetime src ;;
  let ext := Py.lower (Py.splitext_ext src) in
  dst_name <- generate_name_with_counter dt ext ;;
  let dst_path := Py.path_join dst_dir dst_name in
  call_logged (copy2 W src dst_path) (Ev_copy2 src dst_path) ;;;
  print ("-> Copied to: " +:+ dst_path) ;;;
  ret dst_path.

Definition audio_codec_probe_cmd (src : string) : string :=
  "ffprobe -v error -select_streams a:0 -show_entries stream=codec_name -of default=noprint_wrappers=1:nokey=1 "
  +:+ Py.shlex_quote src.

(** The command line handed to [ffmpeg], as [convert_video] builds it. *)
Definition ffmpeg_cmd (src audio_codec dst_path : string) : list string :=
  let cmd := ["ffmpeg"; "-i"; src;
              "-map_metadata"; "0";
              "-c:v"; "copy";
              "-movflags"; "+faststart"] in
  let cmd :=
    if negb (String.eqb audio_codec "aac")
    then cmd ++ ["-c:a"; "aac"; "-b:a"; "192k"]
    else cmd ++ ["-c:a"; "copy"] in
  cmd ++ [dst_path].

Definition convert_video (src dst_dir : string) : M string :=
  dt <- get_video_datetime src ;;
  let ext := ".mp4" in
  dst_name <- generate_name_with_counter dt ext ;;
  let dst_path := Py.path_join dst_dir dst_name in
  let probe_cmd := audio_codec_probe_cmd src in
  audio_codec <- try_except
    (out <- call (check_output W probe_cmd) ;;
     text <- call (bytes_decode W out) ;;
     ret (Py.strip text))
    (fun e =>
       if isinstance e CalledProcessError then ret "unknown" else raise e) ;;
  let cmd := ffmpeg_cmd src audio_codec dst_path in
  call_logged (subprocess_run W cmd) (Ev_run cmd) ;;;
  print ("-> Converted to: " +:+ dst_path) ;;;
  ret dst_path.

Definition newline : string := String "010" "".

Definition process_file (path output_dir : string) : M unit :=
  let ext := Py.lower (Py.splitext_ext path) in
  if bool_decide (ext ∈ PHOTO_EXTENSIONS)
     && bool_decide (MODE ∈ ["photo"; "both"]) then
    print (newline +:+ "Copying photo: " +:+ path) ;;;
    try_except
      (copy_photo path output_dir ;;; ret tt)
      (fun e =>
         print ("FATAL Error copying photo " +:+ path +:+ ": " +:+ exn_str e))
  else if bool_decide (ext ∈ VIDEO_EXTENSIONS)
          && bool_decide (MODE ∈ ["video"; "both"]) then
    print (newline +:+ "Processing video: " +:+ path) ;;;
    try_except
      (convert_video path output_dir ;;; ret tt)
      (fun e =>
         if isinstance e CalledProcessError
         then print ("FATAL Error converting video " +:+ path
                     +:+ " (FFmpeg failed): " +:+ exn_str e)
         else print ("FATAL Error converting video " +:+ path
                     +:+ ": " +:+ exn_str e))
  else ret tt.

Definition recurse_and_process (input_dir output_dir : string) : M unit :=
  ensure_dir output_dir ;;;
  print ("Starting processing from " +:+ input_dir +:+ "...") ;;;
  for_each (walk W input_dir) (fun '(root, _, files) =>
    for_each files (fun file =>
      let full_path := Py.path_join root file in
      process_file full_path output_dir)) ;;;
  print (newline +:+ "Processing complete.").

End Script.

(** ** Vocabulary of the statements *)

(** The name the namer builds from a date, a counter and an extension. *)
Definition filename (dt : datetime) (counter : nat) (ext : string) : string :=
  strftime_Y_m_d dt +:+ "_" +:+ Fmt.format_0wd 3 counter +:+ ext.

(** The table entry of the date of [dt], 0 when there is none. *)
Definition counter_of (m : gmap string nat) (dt : datetime) : nat :=
  default 0 (m !! strftime_Y_m_d dt).

(** A run of the namer alone: the calls in order, the names returned. *)
Fixpoint name_all (calls : list (datetime * string)) : M (list string) :=
  match calls with
  | [] => ret []
  | (dt, ext) :: rest =>
      name <- generate_name_with_counter dt ext ;;
      names <- name_all rest ;;
      ret (name :: names)
  end.

(** How many of the calls [l] are for the calendar date [d]. *)
Definition calls_for (d : nat * nat * nat) (l : list (datetime * string)) : nat :=
  length (filter (fun c => date_of c.1 = d) l).

(** The names a run of the namer returns from the table [m], and the
    table it leaves, written without the state plumbing. *)
Fixpoint names_from (m : gmap string nat) (calls : list (datetime * string))
    : list string :=
  match calls with
  | [] => []
  | (dt, ext) :: rest =>
      let counter := S (counter_of m dt) in
      filename dt counter ext
      :: names_from (<[strftime_Y_m_d dt := counter]> m) rest
  end.

Fixpoint table_after (m : gmap string nat) (calls : list (datetime * string))
    : gmap string nat :=
  match calls with
  | [] => m
  | (dt, _) :: rest =>
      table_after (<[strftime_Y_m_d dt := S (counter_of m dt)]> m) rest
  end.

(** An extension that cannot be mistaken for more digits of the counter:
    it is empty or starts with something else than a digit, as every
    extension with its leading dot does. *)
Definition ext_ok (ext : string) : Prop :=
  Text.starts_with Fmt.is_digit ext = false.

(** The state after one more printed line. *)
Definition printed (s : state) (line : string) : state :=
  mkState (date_counters s) (stdout s ++ [line]) (trace s).

(** The state after one more event. *)
Definition logged (s : state) (ev : event) : state :=
  mkState (date_counters s) (stdout s) (trace s ++ [ev]).

(** The state after the namer has served one call for the date of [dt]. *)
Definition named (s : state) (dt : datetime) : state :=
  mkState (<[strftime_Y_m_d dt := S (counter_of (date_counters s) dt)]>
             (date_counters s))
          (stdout s) (trace s).

(** What the [try] block of [get_photo_datetime] comes to: the date it
    returns, [None] when it falls through to the last line, or the
    exception it raises. *)
Definition photo_metadata (W : World) (path : string) : result (option datetime) :=
  match piexif_load W path with
  | inl e => inl e
  | inr exif_dict =>
      match dict_getitem exif_dict "0th" with
      | inl e => inl e
      | inr ifd =>
          match ifd !! ImageIFD_DateTime with
          | Some date_str =>
              if truthy date_str then
                match decode_value (bytes_decode W) date_str with
                | inl e => inl e
                | inr text =>
                    match strptime W text "%Y:%m:%d %H:%M:%S" with
                    | inl e => inl e
                    | inr dt => inr (Some dt)
                    end
                end
              else inr None
          | None => inr None
          end
      end
  end.

(** [creation_time_str] of [get_video_datetime]: the output of the
    prober, decoded and stripped, or the exception on the way. *)
Definition creation_time_text (W : World) (path : string) : result string :=
  match check_output W (creation_time_probe_cmd path) with
  | inl e => inl e
  | inr out =>
      match bytes_decode W out with
      | inl e => inl e
      | inr text => inr (Py.strip text)
      end
  end.

(** [audio_codec] of [convert_video]: the probed name, the sentinel when
    the prober exits with a failure status, or the exception that
    escapes the [try]. *)
Definition probed_audio_codec (W : World) (src : string) : result string :=
  let handler e :=
    if isinstance e CalledProcessError then inr "unknown" else inl e in
  match check_output W (audio_codec_probe_cmd src) with
  | inl e => handler e
  | inr out =>
      match bytes_decode W out with
      | inl e => handler e
      | inr text => inr (Py.strip text)
      end
  end.

(** The files a trace has produced: the destinations of the copies and
    of the conversions that succeeded. *)
Definition produced_by (ev : event) : option string :=
  match ev with
  | Ev_copy2 _ dst true => Some dst
  | Ev_run cmd true => last cmd
  | _ => None
  end.

Definition produced (tr : list event) : list string := omap produced_by tr.

(** The two gates of [process_file]. *)
Definition photo_gate (MODE path : string) : bool :=
  bool_decide (Py.lower (Py.splitext_ext path) ∈ PHOTO_EXTENSIONS)
  && bool_decide (MODE ∈ ["photo"; "both"]).

Definition video_gate (MODE path : string) : bool :=
  bool_decide (Py.lower (Py.splitext_ext path) ∈ VIDEO_EXTENSIONS)
  && bool_decide (MODE ∈ ["video"; "both"]).

(** The lines [process_file] prints for a failure [e] on [path]. *)
Definition copy_failure_line (path : string) (e : exn) : string :=
  "FATAL Error copying photo " +:+ path +:+ ": " +:+ exn_str e.

Definition convert_failure_line (path : string) (e : exn) : string :=
  if isinstance e CalledProcessError
  then "FATAL Error converting video " +:+ path
       +:+ " (FFmpeg failed): " +:+ exn_str e
  else "FATAL Error converting video " +:+ path +:+ ": " +:+ exn_str e.

(** The loop of [recurse_and_process] over what [os.walk] yields. *)
Definition walk_loop (W : World) (MODE : string)
    (tree : list (string * list string * list string)) (output_dir : string)
    : M unit :=
  for_each tree (fun '(root, _, files) =>
    for_each files (fun file =>
      let full_path := Py.path_join root file in
      process_file W MODE full_path output_dir)).

(** The paths that loop visits, in order. *)
Definition walked_paths (tree : list (string * list string * list string))
    : list string :=
  flat_map (fun '(root, _, files) => map (Py.path_join root) files) tree.

(** ** A reference world

    Concrete collaborators on which the script can be run: an ASCII
    decoder, the two parsers restricted to the layouts the camera writes,
    a clock in UTC, and a small camera card. *)

Module Sample.
Import Text Fmt.

Definition decode_ascii (b : list byte) : result string :=
  if forallb (fun x => (Byte.to_nat x <? 128)%nat) b
  then inr (string_of_list_byte b)
  else inl (Exn UnicodeDecodeError "'utf-8' codec can't decode byte: invalid start byte").

(** A field of exactly [len] decimal digits at index [i]. *)
Definition field (i len : nat) (s : string) : option nat :=
  let f := String.substring i len s in
  if (String.length f =? len)%nat && all is_digit f then Some (parse_nat f)
  else None.

(** The character at index [i] is [c]. *)
Definition has_char (i : nat) (c : ascii) (s : string) : bool :=
  match String.get i s with
  | Some d => Ascii.eqb c d
  | None => false
  end.

Definition in_range (lo hi : N) (n : nat) : bool :=
  ((lo <=? N.of_nat n) && (N.of_nat n <=? hi))%N.

(** [datetime.strptime(text, "%Y:%m:%d %H:%M:%S")] on the zero-filled
    19-character layout. *)
Definition strptime_exif (text fmt : string) : result datetime :=
  let bad := inl (Exn ValueError
    ("time data '" +:+ text +:+ "' does not match format '" +:+ fmt +:+ "'")) in
  if negb (String.eqb fmt "%Y:%m:%d %H:%M:%S") then bad
  else if negb ((String.length text =? 19)%nat
                && has_char 4 ":" text && has_char 7 ":" text
                && has_char 10 " " text
                && has_char 13 ":" text && has_char 16 ":" text) then bad
  else
    match field 0 4 text, field 5 2 text, field 8 2 text,
          field 11 2 text, field 14 2 text, field 17 2 text with
    | Some y, Some mo, Some d, Some h, Some mi, Some s =>
        if in_range 1 9999 y && in_range 1 12 mo && in_range 1 31 d
           && in_range 0 23 h && in_range 0 59 mi && in_range 0 59 s
        then inr (mkDatetime y mo d h mi s 0 None)
        else bad
    | _, _, _, _, _, _ => bad
    end.

(** The zone suffix of an ISO string: nothing, or a sign and [HH:MM]. *)
Definition parse_zone (z : string) : option (option Z) :=
  match z with
  | "" => Some None
  | String sign hm =>
      if (String.length hm =? 5)%nat && has_char 2 ":" hm then
        match field 0 2 hm, field 3 2 hm with
        | Some h, Some m =>
            let off := Z.of_nat (60 * h + m) in
            if Ascii.eqb sign "+" then Some (Some off)
            else if Ascii.eqb sign "-" then Some (Some (- off)%Z)
            else None
        | _, _ => None
        end
      else None
  end.

(** [datetime.fromisoformat(text)] on
    [YYYY-MM-DD[*HH:MM:SS[.fff[fff]][+HH:MM]]]. *)
Definition fromisoformat_basic (text : string) : result datetime :=
  let bad := inl (Exn ValueError
    ("Invalid isoformat string: '" +:+ text +:+ "'")) in
  if negb (has_char 4 "-" text && has_char 7 "-" text) then bad
  else
    match field 0 4 text, field 5 2 text, field 8 2 text with
    | Some y, Some mo, Some d =>
        if negb (in_range 1 9999 y && in_range 1 12 mo && in_range 1 31 d)
        then bad
        else if (String.length text =? 10)%nat
        then inr (mkDatetime y mo d 0 0 0 0 None)
        else if negb (has_char 13 ":" text && has_char 16 ":" text) then bad
        else
          match field 11 2 text, field 14 2 text, field 17 2 text with
          | Some h, Some mi, Some s =>
              if negb (in_range 0 23 h && in_range 0 59 mi && in_range 0 59 s)
              then bad
              else
                let rest := Py.drop 19 text in
                let '(us, zone) :=
                  match rest with
                  | String "." frac =>
                      let '(ds, z) := span is_digit frac in
                      match String.length ds with
                      | 3 => (Some (1000 * parse_nat ds), z)
                      | 6 => (Some (parse_nat ds), z)
                      | _ => (None, z)
                      end
                  | _ => (Some 0, rest)
                  end in
                match us, parse_zone zone with
                | Some u, Some off => inr (mkDatetime y mo d h mi s u off)
                | _, _ => bad
                end
          | _, _, _ => bad
          end
    | _, _, _ => bad
    end.

(** [datetime.fromtimestamp(ts)] on a machine whose zone is UTC, for a
    whole number of seconds: the proleptic Gregorian date of the day
    number, then the time of day. *)
Definition fromtimestamp_utc (ts : timestamp) : result datetime :=
  let days := (ts / 86400)%Z in
  let secs := (ts mod 86400)%Z in
  let z := (days + 719468)%Z in
  let era := (z / 146097)%Z in
  let doe := (z - era * 146097)%Z in
  let yoe := ((doe - doe / 1460 + doe / 36524 - doe / 146096) / 365)%Z in
  let doy := (doe - (365 * yoe + yoe / 4 - yoe / 100))%Z in
  let mp := ((5 * doy + 2) / 153)%Z in
  let d := (doy - (153 * mp + 2) / 5 + 1)%Z in
  let m := (if mp <? 10 then mp + 3 else mp - 9)%Z in
  let y := (yoe + era * 400 + (if m <=? 2 then 1 else 0))%Z in
  if ((1 <=? y) && (y <=? 9999))%Z
  then inr (mkDatetime (Z.to_nat y) (Z.to_nat m) (Z.to_nat d)
              (Z.to_nat (secs / 3600)) (Z.to_nat (secs mod 3600 / 60))
              (Z.to_nat (secs mod 60)) 0 None)
  else inl (Exn OtherError "year is out of range").

Definition ascii_bytes (s : string) : list byte := list_byte_of_string s.

(** What [piexif.load] returns for a JPEG without EXIF, and for one with
    [v] under the [DateTime] tag. *)
Definition exif_none : gmap string (gmap N exif_value) :=
  {[ "0th" := ∅; "Exif" := ∅; "GPS" := ∅; "Interop" := ∅; "1st" := ∅ ]}.

Definition exif_dated (v : exif_value) : gmap string (gmap N exif_value) :=
  <["0th" := {[ ImageIFD_DateTime := v ]}]> exif_none.

(** The modification time of every file on the card: 2022-01-01 00:00. *)
Definition card_mtime : timestamp := 1640995200%Z.

(** The card: [a.jpg] has no EXIF, [b.jpg], [e.jpg] and [f.jpg] were
    taken on 2021-06-15, [c.png] is not a JPEG, [d.jpg] has a broken
    EXIF block, [g.jpg] has a date nobody can read, [gone.jpg] is a
    dangling link; [e.jpg] cannot be copied.  [v1.MOV] has a creation
    time and AAC sound, the prober fails on [v2.avi], [v3.mkv] has no
    creation time, MP3 sound and does not convert, [v4.mp4] has a
    creation time that is no date. *)
Definition card : World := {|
  getmtime p :=
    if String.eqb p "/cam/gone.jpg"
    then inl (Exn OSError "[Errno 2] No such file or directory: '/cam/gone.jpg'")
    else inr card_mtime;
  fromtimestamp := fromtimestamp_utc;
  piexif_load p :=
    if String.eqb p "/cam/b.jpg"
    then inr (exif_dated (Exif_bytes (ascii_bytes "2021:06:15 08:00:00")))
    else if String.eqb p "/cam/e.jpg"
    then inr (exif_dated (Exif_bytes (ascii_bytes "2021:06:15 09:00:00")))
    else if String.eqb p "/cam/f.jpg"
    then inr (exif_dated (Exif_bytes (ascii_bytes "2021:06:15 10:00:00")))
    else if String.eqb p "/cam/g.jpg"
    then inr (exif_dated (Exif_bytes (ascii_bytes "15 June 2021")))
    else if String.eqb p "/cam/c.png"
    then inl (Exn ValueError "Given file is neither JPEG nor TIFF.")
    else if String.eqb p "/cam/d.jpg"
    then inl (Exn OtherError "unpack requires a buffer of 2 bytes")
    else inr exif_none;
  bytes_decode := decode_ascii;
  strptime := strptime_exif;
  fromisoformat := fromisoformat_basic;
  check_output cmd :=
    if String.eqb cmd (creation_time_probe_cmd "/cam/v1.MOV")
    then inr (ascii_bytes ("2023-12-14T10:30:00.000000Z" +:+ newline))
    else if String.eqb cmd (audio_codec_probe_cmd "/cam/v1.MOV")
    then inr (ascii_bytes ("aac" +:+ newline))
    else if String.eqb cmd (creation_time_probe_cmd "/cam/v2.avi")
            || String.eqb cmd (audio_codec_probe_cmd "/cam/v2.avi")
    then inl (Exn CalledProcessError
                "Command 'ffprobe' returned non-zero exit status 1.")
    else if String.eqb cmd (audio_codec_probe_cmd "/cam/v3.mkv")
    then inr (ascii_bytes ("mp3" +:+ newline))
    else if String.eqb cmd (creation_time_probe_cmd "/cam/v4.mp4")
    then inr (ascii_bytes ("yesterday" +:+ newline))
    else if String.eqb cmd (audio_codec_probe_cmd "/cam/v4.mp4")
    then inr (ascii_bytes ("aac" +:+ newline))
    else inr [];
  subprocess_run cmd :=
    if bool_decide (cmd !! 2 = Some "/cam/v3.mkv")
    then inl (Exn CalledProcessError
                "Command 'ffmpeg' returned non-zero exit status 1.")
    else inr tt;
  copy2 src dst :=
    if String.eqb src "/cam/e.jpg"
    then inl (Exn OSError "[Errno 28] No space left on device")
    else inr tt;
  path_exists p := false;
  makedirs p := inr tt;
  walk top :=
    [(top, [],
      ["a.jpg"; "b.jpg"; "c.png"; "d.jpg"; "e.jpg"; "f.jpg"; "g.jpg";
       "gone.jpg"; "notes.txt"; "v1.MOV"; "v2.avi"; "v3.mkv"; "v4.mp4"])]
|}.

(** Four calls of the namer: three for 2021-06-15, one for 2022-01-01 in
    between. *)
Definition sample_calls : list (datetime * string) :=
  [ (mkDatetime 2021 6 15 8 0 0 0 None, ".jpg");
    (mkDatetime 2022 1 1 0 0 0 0 None, ".jpg");
    (mkDatetime 2021 6 15 9 30 0 0 None, ".mp4");
    (mkDatetime 2021 6 15 7 0 0 0 None, ".jpg") ].

(** A world in which every file is a dated photo that copies. *)
Definition studio : World := {|
  getmtime p := inr card_mtime;
  fromtimestamp := fromtimestamp_utc;
  piexif_load p :=
    inr (exif_dated (Exif_bytes (ascii_bytes "2021:06:15 08:00:00")));
  bytes_decode := decode_ascii;
  strptime := strptime_exif;
  fromisoformat := fromisoformat_basic;
  check_output cmd := inr [];
  subprocess_run cmd := inr tt;
  copy2 src dst := inr tt;
  path_exists p := true;
  makedirs p := inr tt;
  walk top := []
|}.

End Sample.

(** ** Vocabulary of the further statements *)

(** From [s] to [s'] nothing but printing was done. *)
Definition only_prints (s s' : state) : Prop :=
  date_counters s' = date_counters s
  /\ trace s' = trace s
  /\ exists lines, stdout s' = stdout s ++ lines.

(** From [s] to [s'] the counter of the date of [dt] was taken - its
    entry is one up, no other entry moved - the events [evs] were added,
    and lines were printed. *)
Definition took (s s' : state) (dt : datetime) (evs : list event) : Prop :=
  date_counters s'
  = <[strftime_Y_m_d dt := S (counter_of (date_counters s) dt)]>
      (date_counters s)
  /\ trace s' = trace s ++ evs
  /\ exists lines, stdout s' = stdout s ++ lines.

(** The state a run is in after dispatching the files [paths] from [s]. *)
Definition dispatched (W : World) (MODE : string) (paths : list string)
    (output_dir : string) (s : state) : state :=
  fold_left (fun st path => (process_file W MODE path output_dir st).2) paths s.

(** Every file produced so far is in [output_dir] under a name of the
    namer whose counter has been taken from the table, and no file was
    produced twice. *)
Definition outputs_numbered (output_dir : string) (s : state) : Prop :=
  NoDup (produced (trace s))
  /\ forall p, p ∈ produced (trace s) ->
       exists dt c ext,
         ext_ok ext
         /\ p = Py.path_join output_dir (filename dt c ext)
         /\ c <= counter_of (date_counters s) dt.

(** ** A second card

    Tags written in Latin-1: the prober's answers are not ASCII, so they
    cannot be decoded.  For [clip.avi] it is the creation time, for
    [song.avi] the name of the audio codec. *)

Module Latin.
Import Sample.

Definition latin_bytes : list byte := [x6a; x75; x69; xe9].

Definition card : World := {|
  getmtime p := inr card_mtime;
  fromtimestamp := fromtimestamp_utc;
  piexif_load p := inr exif_none;
  bytes_decode := decode_ascii;
  strptime := strptime_exif;
  fromisoformat := fromisoformat_basic;
  check_output cmd :=
    if String.eqb cmd (creation_time_probe_cmd "/cam/clip.avi")
       || String.eqb cmd (audio_codec_probe_cmd "/cam/song.avi")
    then inr latin_bytes
    else inr [];
  subprocess_run cmd := inr tt;
  copy2 src dst := inr tt;
  path_exists p := true;
  makedirs p := inr tt;
  walk top := [(top, [], ["clip.avi"; "song.avi"; ".jpg"; "README"])]
|}.

End Latin.

(** A character that is neither a dot nor a slash. *)
Definition plain_char (c : ascii) : bool :=
  negb (Ascii.eqb c ".") && negb (Ascii.eqb c "/").

(** A character other than [c]. *)
Definition other_than (c : ascii) (d : ascii) : bool := negb (Ascii.eqb d c).

(** ** The manual tagging tool ([add_video_metadata.py])

    The window of [VideoDateTagger] is modelled by the attributes its
    methods read and write, the text in the date field included, and by
    the list of what it has done to the screen and to the disk.  The
    directory listing, the date parser and the calls that rename a file
    and set its times are collaborators. *)

Module VideoDateTagger.

Record Desk := mkDesk {
  glob : string -> list string;
  strptime : string -> string -> result datetime;
  rename : string -> string -> result unit;
  timestamp_of : datetime -> result timestamp;
  utime : string -> timestamp -> timestamp -> result unit
}.

(** What the tool does: message boxes, the window, the player, the
    disk, the date field. *)
Inductive action :=
  | Information (title text : string)
  | Critical (title text : string)
  | Close
  | Set_source (path : string)
  | Play
  | Rename (src dst : string) (ok : bool)
  | Utime (path : string) (atime mtime : timestamp) (ok : bool)
  | Clear_input.

(** The attributes of the window; [current_file] does not exist until
    [load_next_video] has shown a video. *)
Record tagger := mkTagger {
  directory : string;
  video_files : list string;
  index : nat;
  counter : nat;
  current_file : option string;
  date_input : string;
  actions : list action
}.

Definition act (t : tagger) (a : action) : tagger :=
  mkTagger (directory t) (video_files t) (index t) (counter t)
    (current_file t) (date_input t) (actions t ++ [a]).

(** [sorted(l)] on strings: insertion in ascending order. *)
Fixpoint insert_sorted (x : string) (l : list string) : list string :=
  match l with
  | [] => [x]
  | y :: l' => if String.leb x y then x :: l else y :: insert_sorted x l'
  end.

Definition sorted (l : list string) : list string :=
  fold_right insert_sorted [] l.

Definition load_next_video (t : tagger) : result unit * tagger :=
  if (length (video_files t) <=? index t)%nat then
    (inr tt, act (act t (Information "Done" "All videos processed.")) Close)
  else
    match video_files t !! index t with
    | None => (inl (Exn OtherError "list index out of range"), t)
    | Some file =>
        let t := mkTagger (directory t) (video_files t) (index t) (counter t)
                   (Some file) (date_input t) (actions t) in
        (inr tt, act (act t (Set_source file)) Play)
    end.

(** [__init__], the widgets left out. *)
Definition init (D : Desk) (dir : string) : result unit * tagger :=
  let files := sorted (glob D (Py.path_join dir "*.mp4")) in
  load_next_video (mkTagger dir files 0 0 None "" []).

(** The name the tool gives to the video in hand. *)
Definition new_filename (date_str : string) (counter : nat) : string :=
  Py.replace "-" "_" date_str +:+ "_" +:+ Fmt.format_d counter +:+ ".mp4".

Definition failure_box (e : exn) : action :=
  Critical "Error" ("Failed to rename or update time: " +:+ exn_str e).

(** The slot of the save button. *)
Definition save_date_and_rename (D : Desk) (t : tagger) : result unit * tagger :=
  let date_str := date_input t in
  match strptime D date_str "%Y-%m-%d" with
  | inl e =>
      if isinstance e ValueError
      then (inr tt,
            act t (Critical "Error" "Invalid date format. Use YYYY-MM-DD."))
      else (inl e, t)
  | inr date_obj =>
      let new_path :=
        Py.path_join (directory t) (new_filename date_str (counter t)) in
      match current_file t with
      | None =>
          (inr tt,
           act t (failure_box
                    (Exn AttributeError
                       "'VideoDateTagger' object has no attribute 'current_file'")))
      | Some file =>
          match rename D file new_path with
          | inl e =>
              (inr tt, act (act t (Rename file new_path false)) (failure_box e))
          | inr _ =>
              let t1 := act t (Rename file new_path true) in
              match timestamp_of D date_obj with
              | inl e => (inr tt, act t1 (failure_box e))
              | inr ts =>
                  match utime D new_path ts ts with
                  | inl e =>
                      (inr tt,
                       act (act t1 (Utime new_path ts ts false)) (failure_box e))
                  | inr _ =>
                      let t2 := act t1 (Utime new_path ts ts true) in
                      let t3 :=
                        mkTagger (directory t2) (video_files t2)
                          (index t2 + 1) (counter t2 + 1) (current_file t2)
                          "" (actions t2 ++ [Clear_input]) in
                      match load_next_video t3 with
                      | (inl e, t4) => (inr tt, act t4 (failure_box e))
                      | (inr _, t4) => (inr tt, t4)
                      end
                  end
              end
          end
      end
  end.

(** The user types [text] into the date field and presses the button. *)
Definition enter (D : Desk) (text : string) (t : tagger) : tagger :=
  (save_date_and_rename D
     (mkTagger (directory t) (video_files t) (index t) (counter t)
        (current_file t) text (actions t))).2.

(** A sitting: the window is opened on [dir] and the [texts] are entered
    one after the other. *)
Definition sitting (D : Desk) (dir : string) (texts : list string) : tagger :=
  fold_left (fun t text => enter D text t) texts (init D dir).2.

(** The files a list of actions has renamed and given their time. *)
Definition tagged_by (a : action) : option string :=
  match a with
  | Utime path _ _ true => Some path
  | _ => None
  end.

Definition tagged (l : list action) : list string := omap tagged_by l.

(** What the disk is asked to do, as opposed to the screen. *)
Definition touches_disk (a : action) : bool :=
  match a with
  | Rename _ _ _ | Utime _ _ _ _ => true
  | _ => false
  end.

(** A desk for the examples: three videos, dates in the zero-filled form
    [YYYY-MM-DD], times told as the number [YYYYMMDD], and a disk on
    which a file named for the year 2020 cannot be given a time. *)
Definition strptime_iso (text fmt : string) : result datetime :=
  let bad := inl (Exn ValueError
    ("time data '" +:+ text +:+ "' does not match format '" +:+ fmt +:+ "'")) in
  if (String.length text =? 10)%nat
     && Sample.has_char 4 "-" text && Sample.has_char 7 "-" text then
    match Sample.field 0 4 text, Sample.field 5 2 text, Sample.field 8 2 text with
    | Some y, Some m, Some d =>
        if Sample.in_range 1 9999 y && Sample.in_range 1 12 m
           && Sample.in_range 1 31 d
        then inr (mkDatetime y m d 0 0 0 0 None)
        else bad
    | _, _, _ => bad
    end
  else bad.

Definition desk : Desk := {|
  glob pattern :=
    if String.eqb pattern "/videos/*.mp4"
    then ["/videos/c.mp4"; "/videos/a.mp4"; "/videos/b.mp4"]
    else [];
  strptime := strptime_iso;
  rename src dst := inr tt;
  timestamp_of dt := inr (Z.of_nat (year dt) * 10000
                          + Z.of_nat (month dt) * 100 + Z.of_nat (day dt))%Z;
  utime path atime mtime :=
    if String.prefix "/videos/2020" path
    then inl (Exn OSError "[Errno 1] Operation not permitted")
    else inr tt
|}.

(** Ascending order of paths, as [sorted] compares them. *)
Definition path_le (a b : string) : Prop := String.leb a b = true.

(** What a sitting keeps true: the counter is the index and the number
    of videos tagged, and the i-th of them carries the number i. *)
Definition numbered (t : tagger) : Prop :=
  counter t = index t
  /\ length (tagged (actions t)) = counter t
  /\ forall i p, tagged (actions t) !! i = Some p ->
       exists P, p = P +:+ "_" +:+ Fmt.format_d i +:+ ".mp4".

End VideoDateTagger.

(** Every file produced so far lies directly in [output_dir], under a
    name of the namer with a photo extension or [.mp4]. *)
Definition outputs_flat (output_dir : string) (s : state) : Prop :=
  forall p, p ∈ produced (trace s) ->
    exists dt c ext,
      (ext ∈ PHOTO_EXTENSIONS \/ ext = ".mp4")
      /\ p = Py.path_join output_dir (filename dt c ext)
      /\ Text.all (other_than "/") (filename dt c ext) = true.
(** * Facts about the text helpers *)

Module TextFacts.
Import Text.

Lemma app_cons (c : ascii) (s1 s2 : string) :
  String c s1 +:+ s2 = String c (s1 +:+ s2).
Proof. reflexivity. Qed.

Lemma app_nil_l (s : string) : "" +:+ s = s.
Proof. reflexivity. Qed.

Ltac push_app := rewrite ?app_cons, ?app_nil_l.

Ltac push_app_in H := rewrite ?app_cons, ?app_nil_l in H.

Lemma app_nil_r (s : string) : s +:+ "" = s.
Proof. induction s as [|c s IH]; push_app; [done | by rewrite IH]. Qed.

Lemma app_assoc (s1 s2 s3 : string) : (s1 +:+ s2) +:+ s3 = s1 +:+ (s2 +:+ s3).
Proof. induction s1 as [|c s1 IH]; push_app; [done | by rewrite IH]. Qed.

Lemma length_app (s1 s2 : string) :
  String.length (s1 +:+ s2) = String.length s1 + String.length s2.
Proof. induction s1 as [|c s1 IH]; push_app; cbn; [done | by rewrite IH]. Qed.

Lemma length_replicate n c : String.length (replicate n c) = n.
Proof. induction n; cbn; congruence. Qed.

Lemma all_app p s1 s2 : all p (s1 +:+ s2) = all p s1 && all p s2.
Proof.
  induction s1 as [|c s1 IH]; push_app; cbn; [done|].
  by rewrite IH, andb_assoc.
Qed.

Lemma all_replicate p n c : p c = true -> all p (replicate n c) = true.
Proof. intros Hc. induction n; cbn; [done | by rewrite Hc, IHn]. Qed.

Lemma span_app p s1 s2 :
  all p s1 = true -> starts_with p s2 = false ->
  span p (s1 +:+ s2) = (s1, s2).
Proof.
  intros H1 H2. induction s1 as [|c s1 IH]; push_app; cbn in *.
  - destruct s2 as [|c s2]; cbn in *; [done | by rewrite H2].
  - apply andb_true_iff in H1 as [Hc H1]. by rewrite Hc, IH.
Qed.

(** Splitting is unambiguous: a run of [p]-characters followed by
    something that does not start with one. *)
Lemma app_span_inj p a1 b1 a2 b2 :
  all p a1 = true -> all p a2 = true ->
  starts_with p b1 = false -> starts_with p b2 = false ->
  a1 +:+ b1 = a2 +:+ b2 -> a1 = a2 /\ b1 = b2.
Proof.
  intros Ha1 Ha2 Hb1 Hb2 Heq.
  pose proof (span_app p a1 b1 Ha1 Hb1) as E1.
  pose proof (span_app p a2 b2 Ha2 Hb2) as E2.
  rewrite Heq in E1. rewrite E1 in E2. by inversion E2.
Qed.

Lemma ends_with_app suffix s : ends_with suffix (s +:+ suffix) = true.
Proof.
  induction s as [|c s IH]; push_app; cbn.
  - destruct suffix; cbn; [done|]. by rewrite Ascii.eqb_refl, String.eqb_refl.
  - rewrite IH. by repeat case_match.
Qed.

Lemma ends_with_app_r suffix a b :
  ends_with suffix b = true -> ends_with suffix (a +:+ b) = true.
Proof.
  intros Hb. induction a as [|c a IH]; push_app; [done|].
  cbn [ends_with]. rewrite IH. by case_match.
Qed.


End TextFacts.

(** * Facts about decimal formatting *)

Module FmtFacts.
Import Text TextFacts Fmt.

Lemma is_nat_digit_char n : n < 10 -> Ascii.is_nat (digit_char n) = Some n.
Proof. intros H. do 10 (destruct n as [|n]; [done|]). lia. Qed.

Lemma is_digit_digit_char n : is_digit (digit_char n) = true.
Proof. do 9 (destruct n as [|n]; [done|]). done. Qed.

Lemma format_d_go_acc fuel n acc :
  format_d_go fuel n acc = format_d_go fuel n "" +:+ acc.
Proof.
  revert n acc. induction fuel as [|fuel IH]; intros n acc;
    cbn [format_d_go]; [done|].
  destruct (n / 10) as [|q]; [done|].
  rewrite (IH _ (String _ acc)), (IH _ (String _ "")).
  by rewrite app_assoc.
Qed.

Lemma format_d_go_fuel f1 f2 n acc :
  n < f1 -> n < f2 -> format_d_go f1 n acc = format_d_go f2 n acc.
Proof.
  revert f2 n acc. induction f1 as [|f1 IH]; intros f2 n acc H1 H2; [lia|].
  destruct f2 as [|f2]; [lia|]. cbn [format_d_go].
  destruct (n / 10) as [|q] eqn:Hq; [done|].
  assert (n / 10 < n) by (apply Nat.div_lt; [destruct n; [done | lia] | lia]).
  apply IH; lia.
Qed.

(** The defining equations of [format_d], one digit at a time. *)
Lemma format_d_small n : n < 10 -> format_d n = String (digit_char n) "".
Proof.
  intros H. unfold format_d. cbn [format_d_go].
  rewrite (Nat.div_small n 10), (Nat.mod_small n 10); done.
Qed.

Lemma format_d_step n :
  10 <= n ->
  format_d n = format_d (n / 10) +:+ String (digit_char (n mod 10)) "".
Proof.
  intros H. unfold format_d at 1. cbn [format_d_go].
  assert (0 < n / 10) as Hq by (apply Nat.div_str_pos; lia).
  destruct (n / 10) as [|q] eqn:Hdiv; [lia|].
  rewrite format_d_go_acc. f_equal.
  unfold format_d. apply format_d_go_fuel; [|lia].
  rewrite <-Hdiv. apply Nat.div_lt; lia.
Qed.

(** Induction one decimal digit at a time. *)
Lemma digit_ind (P : nat -> Prop) :
  (forall n, n < 10 -> P n) ->
  (forall n, 10 <= n -> P (n / 10) -> P n) ->
  forall n, P n.
Proof.
  intros Hsmall Hstep n. induction (lt_wf n) as [n _ IH].
  destruct (le_lt_dec 10 n) as [Hge|Hlt]; [|by apply Hsmall].
  apply Hstep; [done|]. apply IH, Nat.div_lt; lia.
Qed.

Lemma format_d_digits n : all is_digit (format_d n) = true.
Proof.
  induction n as [n Hn | n Hn IH] using digit_ind.
  - rewrite format_d_small by done. cbn [all].
    by rewrite is_digit_digit_char.
  - rewrite format_d_step, all_app, IH by done. cbn [all].
    by rewrite is_digit_digit_char.
Qed.

Lemma parse_nat_from_app a s1 s2 :
  parse_nat_from a (s1 +:+ s2) = parse_nat_from (parse_nat_from a s1) s2.
Proof.
  revert a. induction s1 as [|c s1 IH]; intros a; push_app; [done|].
  cbn. apply IH.
Qed.

Lemma parse_format_d n : parse_nat (format_d n) = n.
Proof.
  unfold parse_nat. induction n as [n Hn | n Hn IH] using digit_ind.
  - rewrite format_d_small by done. cbn [parse_nat_from].
    rewrite is_nat_digit_char by done. cbn [from_option id]. lia.
  - rewrite format_d_step, parse_nat_from_app, IH by done.
    cbn [parse_nat_from].
    rewrite is_nat_digit_char by (apply Nat.mod_upper_bound; lia).
    cbn [from_option id]. pose proof (Nat.div_mod_eq n 10). lia.
Qed.

Lemma length_format_d_pos n : 0 < String.length (format_d n).
Proof.
  destruct (le_lt_dec 10 n).
  - rewrite format_d_step, length_app by done. cbn [String.length]. lia.
  - rewrite format_d_small by done. cbn [String.length]. lia.
Qed.



Lemma format_0wd_digits w n : all is_digit (format_0wd w n) = true.
Proof.
  unfold format_0wd. rewrite all_app, format_d_digits.
  by rewrite all_replicate.
Qed.

Lemma parse_nat_from_zeros k s :
  parse_nat_from 0 (replicate k "0" +:+ s) = parse_nat_from 0 s.
Proof. induction k as [|k IH]; cbn [replicate]; push_app; [done | apply IH]. Qed.

Lemma parse_format_0wd w n : parse_nat (format_0wd w n) = n.
Proof.
  unfold parse_nat, format_0wd. rewrite parse_nat_from_zeros.
  apply parse_format_d.
Qed.

Lemma format_0wd_inj w n m : format_0wd w n = format_0wd w m -> n = m.
Proof.
  intros H. rewrite <-(parse_format_0wd w n), <-(parse_format_0wd w m).
  by rewrite H.
Qed.

Lemma length_format_0wd w n :
  String.length (format_0wd w n) = Nat.max w (String.length (format_d n)).
Proof.
  unfold format_0wd. rewrite length_app, length_replicate. lia.
Qed.


End FmtFacts.

(** * Facts about the library functions *)

Module PyFacts.
Import Text TextFacts Py.

Example strip_newline :
  strip (String "010" " aac" +:+ String "010" "") = "aac".
Proof. reflexivity. Qed.

Example splitext_plain : splitext_ext "/cam/DCIM/IMG_0001.JPG" = ".JPG".
Proof. reflexivity. Qed.

Example splitext_hidden : splitext_ext "/cam/.hidden" = "".
Proof. reflexivity. Qed.

Example splitext_dir_dot : splitext_ext "/cam.d/notes" = "".
Proof. reflexivity. Qed.

Example splitext_two : splitext_ext "a.tar.gz" = ".gz".
Proof. reflexivity. Qed.

Example lower_ext : lower ".JpEg" = ".jpeg".
Proof. reflexivity. Qed.

Example join_plain : path_join "/out" "2021_06_15_001.jpg" = "/out/2021_06_15_001.jpg".
Proof. reflexivity. Qed.

Example join_slash : path_join "/out/" "x.mp4" = "/out/x.mp4".
Proof. reflexivity. Qed.

Example quote_safe : shlex_quote "/cam/a.mp4" = "/cam/a.mp4".
Proof. reflexivity. Qed.

Example quote_space : shlex_quote "my clip.mp4" = "'my clip.mp4'".
Proof. reflexivity. Qed.

Example replace_zulu :
  replace "Z" "+00:00" "2023-12-14T10:30:00.000000Z"
  = "2023-12-14T10:30:00.000000+00:00".
Proof. reflexivity. Qed.

(** A string without the character is left as it is, ... *)
Lemma replace_absent old new s :
  all (fun c => negb (Ascii.eqb c old)) s = true -> replace old new s = s.
Proof.
  induction s as [|c s IH]; cbn; [done|].
  intros [Hc Hs]%andb_true_iff.
  destruct (Ascii.eqb c old); [done|]. by rewrite IH.
Qed.

(** ... and in one that has it only at its end, only the end changes. *)
Lemma replace_trailing old new s :
  all (fun c => negb (Ascii.eqb c old)) s = true ->
  replace old new (s +:+ String old "") = s +:+ new.
Proof.
  induction s as [|c s IH]; push_app; cbn.
  - intros _. by rewrite Ascii.eqb_refl, TextFacts.app_nil_r.
  - intros [Hc Hs]%andb_true_iff.
    destruct (Ascii.eqb c old); [done|]. by rewrite IH.
Qed.

Lemma path_join_ends_with suffix a b :
  ends_with suffix b = true -> ends_with suffix (path_join a b) = true.
Proof.
  intros Hb. unfold path_join. repeat case_match; [done|..].
  - by apply ends_with_app_r.
  - by do 2 apply ends_with_app_r.
Qed.

End PyFacts.

(** * The reference world at work *)

Module SampleFacts.
Import Sample.

Example strptime_exif_ok :
  strptime_exif "2021:06:15 08:00:00" "%Y:%m:%d %H:%M:%S"
  = inr (mkDatetime 2021 6 15 8 0 0 0 None).
Proof. vm_compute. reflexivity. Qed.

Example strptime_exif_bad :
  strptime_exif "2021-06-15 08:00:00" "%Y:%m:%d %H:%M:%S"
  = inl (Exn ValueError
      "time data '2021-06-15 08:00:00' does not match format '%Y:%m:%d %H:%M:%S'").
Proof. vm_compute. reflexivity. Qed.

Example fromisoformat_utc :
  fromisoformat_basic "2023-12-14T10:30:00.000000+00:00"
  = inr (mkDatetime 2023 12 14 10 30 0 0 (Some 0%Z)).
Proof. vm_compute. reflexivity. Qed.

Example fromisoformat_short :
  fromisoformat_basic "2023-12-14T10:30:00+00:00"
  = inr (mkDatetime 2023 12 14 10 30 0 0 (Some 0%Z)).
Proof. vm_compute. reflexivity. Qed.

Example fromisoformat_zulu_refused :
  fromisoformat_basic "2023-12-14T10:30:00.000000Z"
  = inl (Exn ValueError "Invalid isoformat string: '2023-12-14T10:30:00.000000Z'").
Proof. vm_compute. reflexivity. Qed.

Example fromtimestamp_2022 :
  fromtimestamp_utc 1640995200%Z = inr (mkDatetime 2022 1 1 0 0 0 0 None).
Proof. vm_compute. reflexivity. Qed.

Example fromtimestamp_leap :
  fromtimestamp_utc 1709210096%Z = inr (mkDatetime 2024 2 29 12 34 56 0 None).
Proof. vm_compute. reflexivity. Qed.

End SampleFacts.

(** * The sequence namer *)

Module NamerFacts.
Import Text TextFacts Fmt FmtFacts.

(** One call: the entry of the date goes up by one and the name carries
    the new value. *)
Lemma generate_name_step dt ext s :
  generate_name_with_counter dt ext s
  = (inr (filename dt (S (counter_of (date_counters s) dt)) ext),
     mkState (<[strftime_Y_m_d dt := S (counter_of (date_counters s) dt)]>
                (date_counters s))
             (stdout s) (trace s)).
Proof.
  unfold generate_name_with_counter, counter_of, filename, bind, ret,
    counters_get, counters_set.
  destruct (date_counters s !! strftime_Y_m_d dt) as [c|] eqn:Hc; cbn.
  - rewrite lookup_insert_eq. cbn. by rewrite Nat.add_1_r.
  - rewrite lookup_insert_eq. cbn. by rewrite insert_insert_eq.
Qed.

Lemma strftime_date dt1 dt2 :
  date_of dt1 = date_of dt2 -> strftime_Y_m_d dt1 = strftime_Y_m_d dt2.
Proof. unfold date_of, strftime_Y_m_d. by intros [= -> -> ->]. Qed.

Lemma underscore_not_digit s : starts_with is_digit ("_" +:+ s) = false.
Proof. reflexivity. Qed.

(** Two zero-padded numbers followed by text that does not go on with a
    digit: equal wholes have equal parts. *)
Lemma padded_inj w n1 n2 r1 r2 :
  starts_with is_digit r1 = false -> starts_with is_digit r2 = false ->
  format_0wd w n1 +:+ r1 = format_0wd w n2 +:+ r2 -> n1 = n2 /\ r1 = r2.
Proof.
  intros H1 H2 Heq.
  apply (app_span_inj is_digit) in Heq as [Hn Hr];
    auto using format_0wd_digits.
  split; [by eapply format_0wd_inj | done].
Qed.

(** The key of the table determines the calendar date. *)
Lemma strftime_inj dt1 dt2 :
  strftime_Y_m_d dt1 = strftime_Y_m_d dt2 -> date_of dt1 = date_of dt2.
Proof.
  unfold strftime_Y_m_d, date_of. intros H.
  apply padded_inj in H as [Hy H]; auto using underscore_not_digit.
  push_app_in H. injection H as H.
  apply padded_inj in H as [Hm H]; auto using underscore_not_digit.
  push_app_in H. injection H as H.
  rewrite <-(app_nil_r (format_0wd 2 (day dt1))) in H.
  rewrite <-(app_nil_r (format_0wd 2 (day dt2))) in H.
  apply padded_inj in H as [Hd _]; [|done..].
  congruence.
Qed.

(** A name determines the date, the counter and the extension. *)
Lemma filename_inj dt1 c1 e1 dt2 c2 e2 :
  ext_ok e1 -> ext_ok e2 ->
  filename dt1 c1 e1 = filename dt2 c2 e2 ->
  date_of dt1 = date_of dt2 /\ c1 = c2 /\ e1 = e2.
Proof.
  unfold filename, strftime_Y_m_d, ext_ok. intros He1 He2 H.
  rewrite !app_assoc in H.
  apply padded_inj in H as [Hy H]; auto using underscore_not_digit.
  push_app_in H. injection H as H.
  apply padded_inj in H as [Hm H]; auto using underscore_not_digit.
  push_app_in H. injection H as H.
  apply padded_inj in H as [Hd H]; auto using underscore_not_digit.
  push_app_in H. injection H as H.
  apply padded_inj in H as [Hc H]; [|done..].
  unfold date_of. split; [congruence | done].
Qed.

(** The run of the namer is the fold written in [names_from] and
    [table_after]; nothing else of the state moves. *)
Lemma name_all_run calls s :
  name_all calls s
  = (inr (names_from (date_counters s) calls),
     mkState (table_after (date_counters s) calls) (stdout s) (trace s)).
Proof.
  revert s. induction calls as [|[dt ext] rest IH]; intros s.
  - by destruct s.
  - cbn [name_all names_from table_after]. unfold bind at 1.
    rewrite generate_name_step. unfold bind at 1. by rewrite IH.
Qed.

Lemma length_names_from m calls : length (names_from m calls) = length calls.
Proof.
  revert m. induction calls as [|[dt ext] rest IH]; intros m; cbn; [done|].
  by rewrite IH.
Qed.

Lemma calls_for_cons d c l :
  calls_for d (c :: l)
  = (if decide (date_of c.1 = d) then 1 else 0) + calls_for d l.
Proof.
  unfold calls_for. rewrite filter_cons. by case_decide.
Qed.

Lemma calls_for_app d l1 l2 :
  calls_for d (l1 ++ l2) = calls_for d l1 + calls_for d l2.
Proof. unfold calls_for. by rewrite filter_app, List.length_app. Qed.

Lemma counter_of_insert m dt dt' v :
  counter_of (<[strftime_Y_m_d dt := v]> m) dt'
  = if decide (date_of dt = date_of dt') then v else counter_of m dt'.
Proof.
  unfold counter_of. case_decide as Hd.
  - by rewrite (strftime_date _ _ Hd), lookup_insert_eq.
  - rewrite lookup_insert_ne; [done|]. by intros ?%strftime_inj.
Qed.

Lemma counter_of_date m dt dt' :
  date_of dt = date_of dt' -> counter_of m dt = counter_of m dt'.
Proof. intros H. unfold counter_of. by rewrite (strftime_date _ _ H). Qed.

(** The i-th name carries the table entry the run started from plus the
    number of calls for that date up to and including the i-th. *)
Lemma names_from_lookup m calls i dt ext :
  calls !! i = Some (dt, ext) ->
  names_from m calls !! i
  = Some (filename dt
            (counter_of m dt + calls_for (date_of dt) (take (S i) calls)) ext).
Proof.
  revert m i. induction calls as [|[dt0 ext0] rest IH]; intros m i Hi; [done|].
  destruct i as [|i]; cbn in Hi.
  - injection Hi as -> ->. cbn [names_from lookup list_lookup].
    rewrite firstn_cons, take_0, calls_for_cons, decide_True by done.
    unfold calls_for. cbn [filter list_filter length]. do 2 f_equal. lia.
  - cbn [names_from]. rewrite lookup_cons_ne_0 by done. cbn [Nat.pred].
    rewrite (IH _ _ Hi). do 2 f_equal.
    rewrite counter_of_insert, firstn_cons, calls_for_cons. cbn [fst].
    case_decide as Hd; [|done].
    rewrite (counter_of_date m dt0 dt Hd). lia.
Qed.

Lemma table_after_counter m calls dt :
  counter_of (table_after m calls) dt
  = counter_of m dt + calls_for (date_of dt) calls.
Proof.
  revert m. induction calls as [|[dt0 ext0] rest IH]; intros m.
  - unfold calls_for. cbn. lia.
  - cbn [table_after]. rewrite IH, counter_of_insert, calls_for_cons.
    cbn [fst]. case_decide as Hd; [|done].
    rewrite (counter_of_date m dt0 dt Hd). lia.
Qed.

(** A later call for the same date has a larger count. *)
Lemma calls_for_take_lt (calls : list (datetime * string)) i j dt ext :
  i < j -> calls !! j = Some (dt, ext) ->
  calls_for (date_of dt) (take (S i) calls)
  < calls_for (date_of dt) (take (S j) calls).
Proof.
  intros Hij Hj.
  rewrite (take_S_r calls j (dt, ext) Hj), calls_for_app.
  rewrite <-(take_drop (S i) (take j calls)), calls_for_app.
  rewrite take_take, Nat.min_l by lia.
  rewrite (calls_for_cons _ (dt, ext) []), decide_True by done. lia.
Qed.

Lemma call_counters_distinct (calls : list (datetime * string))
    i j dt1 e1 dt2 e2 :
  calls !! i = Some (dt1, e1) -> calls !! j = Some (dt2, e2) -> i <> j ->
  (date_of dt1, calls_for (date_of dt1) (take (S i) calls))
  <> (date_of dt2, calls_for (date_of dt2) (take (S j) calls)).
Proof.
  intros Hi Hj Hne [Hd Hc]%pair_equal_spec.
  destruct (Nat.lt_total i j) as [Hlt|[?|Hlt]]; [|done|].
  - pose proof (calls_for_take_lt calls i j dt2 e2 Hlt Hj) as H.
    rewrite <-Hd in H at 1. lia.
  - pose proof (calls_for_take_lt calls j i dt1 e1 Hlt Hi) as H.
    rewrite Hd in H at 1. lia.
Qed.

Lemma names_from_NoDup (calls : list (datetime * string)) :
  Forall (fun c => ext_ok c.2) calls -> NoDup (names_from ∅ calls).
Proof.
  intros Hext. apply NoDup_alt. intros i j name Hi Hj.
  assert (is_Some (calls !! i)) as [[dt1 e1] Hci].
  { apply lookup_lt_is_Some. rewrite <-(length_names_from ∅).
    by eapply lookup_lt_Some. }
  assert (is_Some (calls !! j)) as [[dt2 e2] Hcj].
  { apply lookup_lt_is_Some. rewrite <-(length_names_from ∅).
    by eapply lookup_lt_Some. }
  rewrite (names_from_lookup _ _ _ _ _ Hci) in Hi.
  rewrite (names_from_lookup _ _ _ _ _ Hcj) in Hj.
  injection Hi as <-. injection Hj as Hj.
  apply filename_inj in Hj as (Hd & Hc & _).
  - destruct (decide (i = j)) as [|Hne]; [done|].
    destruct (call_counters_distinct calls i j dt1 e1 dt2 e2 Hci Hcj Hne).
    unfold counter_of in Hc. rewrite !lookup_empty in Hc. cbn in Hc.
    congruence.
  - by apply (Forall_lookup_1 _ _ _ _ Hext Hcj).
  - by apply (Forall_lookup_1 _ _ _ _ Hext Hci).
Qed.

End NamerFacts.

(** * The timestamp resolvers *)

Module ResolverFacts.

(** [get_photo_datetime], case by case: the modification time is read
    first, outside the [try]; then the metadata decides.  An exception
    inside the [try] is lost to the one of the first [except] clause. *)
Lemma get_photo_datetime_cases W path s :
  get_photo_datetime W path s
  = match getmtime W path with
    | inl e => (inl e, s)
    | inr ts =>
        match fromtimestamp W ts with
        | inl e => (inl e, s)
        | inr fallback_dt =>
            match photo_metadata W path with
            | inr (Some dt) => (inr dt, s)
            | inr None => (inr fallback_dt, s)
            | inl e => (inl piexif_AttributeError, s)
            end
        end
    end.
Proof.
  unfold get_photo_datetime, photo_metadata, piexif_Invalidbox,
    bind, call, try_except, ret, raise.
  repeat (case_match; simplify_eq/=; try done).
Qed.

(** [get_video_datetime], case by case. *)
Lemma get_video_datetime_cases W path s :
  get_video_datetime W path s
  = match getmtime W path with
    | inl e => (inl e, s)
    | inr ts =>
        match fromtimestamp W ts with
        | inl e => (inl e, s)
        | inr fallback_dt =>
            let outer e :=
              if isinstance e CalledProcessError then (inr fallback_dt, s)
              else (inr fallback_dt, printed s (video_warning_probe path e)) in
            match creation_time_text W path with
            | inl e => outer e
            | inr creation_time_str =>
                if String.eqb creation_time_str "" then (inr fallback_dt, s)
                else
                  match fromisoformat W
                          (Py.replace "Z" "+00:00" creation_time_str) with
                  | inr dt => (inr dt, s)
                  | inl e =>
                      if isinstance e ValueError
                      then (inr fallback_dt,
                            printed s (video_warning_parse creation_time_str))
                      else outer e
                  end
            end
        end
    end.
Proof.
  unfold get_video_datetime, creation_time_text, printed,
    bind, call, try_except, ret, print, raise.
  repeat (case_match; simplify_eq/=; try done).
Qed.

(** The resolvers leave the counters and the trace alone: they only
    print. *)
Lemma get_photo_datetime_frame W path s :
  date_counters (get_photo_datetime W path s).2 = date_counters s
  /\ trace (get_photo_datetime W path s).2 = trace s.
Proof.
  rewrite get_photo_datetime_cases. by repeat case_match.
Qed.

Lemma get_video_datetime_frame W path s :
  date_counters (get_video_datetime W path s).2 = date_counters s
  /\ trace (get_video_datetime W path s).2 = trace s.
Proof.
  rewrite get_video_datetime_cases. cbn zeta. by repeat case_match.
Qed.

End ResolverFacts.

(** * The copier, the converter and the dispatcher *)

Module PipelineFacts.
Import NamerFacts ResolverFacts.

Lemma generate_name_named dt ext s :
  generate_name_with_counter dt ext s
  = (inr (filename dt (S (counter_of (date_counters s) dt)) ext), named s dt).
Proof. apply generate_name_step. Qed.

(** [copy_photo], step by step: resolve, name, copy. *)
Lemma copy_photo_cases W src dst_dir s :
  copy_photo W src dst_dir s
  = match get_photo_datetime W src s with
    | (inl e, s1) => (inl e, s1)
    | (inr dt, s1) =>
        let ext := Py.lower (Py.splitext_ext src) in
        let dst_path :=
          Py.path_join dst_dir
            (filename dt (S (counter_of (date_counters s1) dt)) ext) in
        let s2 := named s1 dt in
        match copy2 W src dst_path with
        | inl e => (inl e, logged s2 (Ev_copy2 src dst_path false))
        | inr _ =>
            (inr dst_path,
             printed (logged s2 (Ev_copy2 src dst_path true))
               ("-> Copied to: " +:+ dst_path))
        end
    end.
Proof.
  unfold copy_photo. unfold bind at 1.
  destruct (get_photo_datetime W src s) as [[e|dt] s1]; [done|].
  unfold bind at 1. rewrite generate_name_named. cbn zeta.
  unfold bind, call_logged, print, ret, printed, logged.
  by destruct (copy2 W src _) as [e|[]].
Qed.

(** [convert_video], step by step: resolve, name, probe the audio codec,
    build the command, run it. *)
Lemma convert_video_cases W src dst_dir s :
  convert_video W src dst_dir s
  = match get_video_datetime W src s with
    | (inl e, s1) => (inl e, s1)
    | (inr dt, s1) =>
        let dst_path :=
          Py.path_join dst_dir
            (filename dt (S (counter_of (date_counters s1) dt)) ".mp4") in
        let s2 := named s1 dt in
        match probed_audio_codec W src with
        | inl e => (inl e, s2)
        | inr audio_codec =>
            let cmd := ffmpeg_cmd src audio_codec dst_path in
            match subprocess_run W cmd with
            | inl e => (inl e, logged s2 (Ev_run cmd false))
            | inr _ =>
                (inr dst_path,
                 printed (logged s2 (Ev_run cmd true))
                   ("-> Converted to: " +:+ dst_path))
            end
        end
    end.
Proof.
  unfold convert_video. unfold bind at 1.
  destruct (get_video_datetime W src s) as [[e|dt] s1]; [done|].
  unfold bind at 1. rewrite generate_name_named. cbn zeta.
  unfold probed_audio_codec, bind, try_except, call, call_logged, print,
    ret, raise, printed, logged.
  destruct (check_output W _) as [e|out].
  - destruct (isinstance e CalledProcessError); [|done].
    by destruct (subprocess_run W _) as [e'|[]].
  - destruct (bytes_decode W out) as [e|text].
    + destruct (isinstance e CalledProcessError); [|done].
      by destruct (subprocess_run W _) as [e'|[]].
    + by destruct (subprocess_run W _) as [e'|[]].
Qed.

(** [process_file], case by case: whatever the copier or the converter
    raises ends in a printed line. *)
Lemma process_file_cases W MODE path output_dir s :
  process_file W MODE path output_dir s
  = if photo_gate MODE path then
      match copy_photo W path output_dir
              (printed s (newline +:+ "Copying photo: " +:+ path)) with
      | (inr _, s') => (inr tt, s')
      | (inl e, s') => (inr tt, printed s' (copy_failure_line path e))
      end
    else if video_gate MODE path then
      match convert_video W path output_dir
              (printed s (newline +:+ "Processing video: " +:+ path)) with
      | (inr _, s') => (inr tt, s')
      | (inl e, s') => (inr tt, printed s' (convert_failure_line path e))
      end
    else (inr tt, s).
Proof.
  unfold process_file, photo_gate, video_gate, copy_failure_line,
    convert_failure_line.
  destruct (_ && _).
  - unfold bind at 1, print at 1, try_except, bind, ret. fold (printed s).
    by destruct (copy_photo W path output_dir _) as [[e|p] s'].
  - destruct (_ && _); [|done].
    unfold bind at 1, print at 1, try_except, bind, ret. fold (printed s).
    destruct (convert_video W path output_dir _) as [[e|p] s']; [|done].
    by destruct (isinstance e CalledProcessError).
Qed.

Lemma process_file_returns W MODE path output_dir s :
  (process_file W MODE path output_dir s).1 = inr tt.
Proof.
  rewrite process_file_cases. repeat case_match; done.
Qed.

(** A loop whose body never raises runs to the end of the list. *)
Lemma for_each_total {A} (body : A -> M unit) (l : list A) s :
  (forall x s0, (body x s0).1 = inr tt) ->
  for_each l body s = (inr tt, fold_left (fun st x => (body x st).2) l s).
Proof.
  intros Hbody. revert s. induction l as [|x l IH]; intros s; [done|].
  cbn [for_each fold_left]. unfold bind.
  specialize (Hbody x s). destruct (body x s) as [[e|[]] s1]; [done|].
  apply IH.
Qed.

Lemma walk_loop_total W MODE tree output_dir s :
  walk_loop W MODE tree output_dir s
  = (inr tt,
     fold_left (fun st path => (process_file W MODE path output_dir st).2)
       (walked_paths tree) s).
Proof.
  unfold walk_loop, walked_paths. revert s.
  induction tree as [|[[root dirs] files] tree IH]; intros s; [done|].
  cbn [for_each flat_map]. unfold bind at 1.
  rewrite for_each_total by (intros; apply process_file_returns).
  rewrite IH, fold_left_app. f_equal.
  generalize s. clear. induction files as [|f files IHf]; intros s; [done|].
  cbn. apply IHf.
Qed.

End PipelineFacts.

(** * The properties of the pipeline *)

Import Text TextFacts Fmt FmtFacts PyFacts NamerFacts ResolverFacts PipelineFacts.

(** ** The sequence namer *)

Example sample_names :
  (name_all Sample.sample_calls initial_state).1
  = inr ["2021_06_15_001.jpg"; "2022_01_01_001.jpg";
         "2021_06_15_002.mp4"; "2021_06_15_003.jpg"].
Proof. vm_compute. reflexivity. Qed.

(** C1. Starting from an empty table, each call of the namer for a
    datetime of date [d] takes the entry of [d] up by exactly one (from
    nothing to 1 when there is none) and returns [d] as [%Y_%m_%d], an
    underscore, the new counter padded with zeros to three digits, and
    the extension.  Hence the k-th call for [d] gets counter [k]
    whatever calls for other dates come in between, no two calls get the
    same date and counter, and - extensions being text that does not
    start with a digit, as those with a leading dot are, the photo
    extensions and [.mp4] among them - no name is returned twice. *)
Theorem namer_counts_each_date (calls : list (datetime * string)) :
  (forall dt ext s,
     let old := counter_of (date_counters s) dt in
     let r := generate_name_with_counter dt ext s in
     r.1 = inr (strftime_Y_m_d dt +:+ "_" +:+ format_0wd 3 (old + 1) +:+ ext)
     /\ date_counters r.2 !! strftime_Y_m_d dt = Some (old + 1)
     /\ (date_counters s !! strftime_Y_m_d dt = None ->
         date_counters r.2 !! strftime_Y_m_d dt = Some 1)
     /\ (forall dt', date_of dt' <> date_of dt ->
         date_counters r.2 !! strftime_Y_m_d dt'
         = date_counters s !! strftime_Y_m_d dt'))
  /\ (let run := name_all calls initial_state in
      let names := names_from ∅ calls in
      run.1 = inr names
      /\ length names = length calls
      /\ (forall i dt ext,
            calls !! i = Some (dt, ext) ->
            names !! i
            = Some (strftime_Y_m_d dt +:+ "_"
                    +:+ format_0wd 3 (calls_for (date_of dt) (take (S i) calls))
                    +:+ ext))
      /\ (forall dt,
            counter_of (date_counters run.2) dt = calls_for (date_of dt) calls)
      /\ (forall i j dt1 e1 dt2 e2,
            calls !! i = Some (dt1, e1) -> calls !! j = Some (dt2, e2) ->
            i <> j ->
            (date_of dt1, calls_for (date_of dt1) (take (S i) calls))
            <> (date_of dt2, calls_for (date_of dt2) (take (S j) calls)))
      /\ (Forall (fun c => ext_ok c.2) calls -> NoDup names))
  /\ (forall ext, ext ∈ PHOTO_EXTENSIONS -> ext_ok ext)
  /\ ext_ok ".mp4".
Proof.
  split; [|split; [|split; [|done]]].
  - intros dt ext s old r. subst r. rewrite generate_name_step.
    cbn [fst snd date_counters]. fold old. rewrite Nat.add_1_r.
    repeat split.
    + apply lookup_insert_eq.
    + intros Hnone. rewrite lookup_insert_eq. subst old.
      unfold counter_of. by rewrite Hnone.
    + intros dt' Hne. rewrite lookup_insert_ne; [done|].
      intros H%strftime_inj. congruence.
  - cbn zeta. rewrite name_all_run. cbn [fst snd date_counters initial_state].
    repeat split.
    + apply length_names_from.
    + intros i dt ext Hi. rewrite (names_from_lookup _ _ _ _ _ Hi).
      unfold counter_of. by rewrite lookup_empty.
    + intros dt. rewrite table_after_counter.
      unfold counter_of. by rewrite lookup_empty.
    + apply call_counters_distinct.
    + apply names_from_NoDup.
  - intros ext. unfold PHOTO_EXTENSIONS.
    rewrite !elem_of_union, !elem_of_singleton.
    by intros [[-> | ->] | ->].
Qed.

Lemma namer_counts_each_date_witness :
  Forall (fun c => ext_ok c.2) Sample.sample_calls
  /\ NoDup (names_from ∅ Sample.sample_calls).
Proof.
  assert (Forall (fun c => ext_ok c.2) Sample.sample_calls) as Hext
    by (repeat constructor).
  split; [exact Hext|].
  destruct (namer_counts_each_date Sample.sample_calls)
    as (_ & (_ & _ & _ & _ & _ & Hnodup) & _).
  exact (Hnodup Hext).
Defined.



(** ** The timestamp resolver *)

Example photo_with_exif :
  get_photo_datetime Sample.card "/cam/b.jpg" initial_state
  = (inr (mkDatetime 2021 6 15 8 0 0 0 None), initial_state).
Proof. vm_compute. reflexivity. Qed.

Example photo_without_exif :
  get_photo_datetime Sample.card "/cam/a.jpg" initial_state
  = (inr (mkDatetime 2022 1 1 0 0 0 0 None), initial_state).
Proof. vm_compute. reflexivity. Qed.

Example photo_dangling_link :
  get_photo_datetime Sample.card "/cam/gone.jpg" initial_state
  = (inl (Exn OSError "[Errno 2] No such file or directory: '/cam/gone.jpg'"),
     initial_state).
Proof. vm_compute. reflexivity. Qed.

Example video_with_creation_time :
  get_video_datetime Sample.card "/cam/v1.MOV" initial_state
  = (inr (mkDatetime 2023 12 14 10 30 0 0 (Some 0%Z)), initial_state).
Proof. vm_compute. reflexivity. Qed.

Example photo_not_a_jpeg :
  get_photo_datetime Sample.card "/cam/c.png" initial_state
  = (inl (Exn AttributeError "module 'piexif' has no attribute 'Invalidbox'"),
     initial_state).
Proof. vm_compute. reflexivity. Qed.

(** The modification time is read before the [try]: a path whose
    modification time cannot be read - a dangling link the walker lists
    among the files - makes the resolver raise. *)
Lemma resolver_raises_without_mtime :
  ~ (forall W path s,
       (exists dt s', get_photo_datetime W path s = (inr dt, s'))
       /\ (exists dt s', get_video_datetime W path s = (inr dt, s'))).
Proof.
  intros H.
  destruct (H Sample.card "/cam/gone.jpg" initial_state)
    as [(dt & s' & Hphoto) _].
  rewrite photo_dangling_link in Hphoto. discriminate.
Qed.

(** C2. The resolver is not total, against what its [except] clauses
    set out to do.  For a path whose modification time can be read, the
    video resolver always returns a datetime - the one parsed from the
    metadata or the modification time - and every exception inside its
    [try] ends in the modification time.  The photo resolver returns a
    datetime only when nothing raises inside its [try]; when something
    does, the first [except] clause names [piexif.Invalidbox], which
    does not exist, and the resolver raises [AttributeError] instead of
    returning the modification time. *)
Theorem photo_resolver_raises_on_metadata_error W path s ts fallback_dt :
  getmtime W path = inr ts ->
  fromtimestamp W ts = inr fallback_dt ->
  (forall e,
     photo_metadata W path = inl e ->
     get_photo_datetime W path s
     = (inl (Exn AttributeError
               "module 'piexif' has no attribute 'Invalidbox'"), s))
  /\ (forall found,
        photo_metadata W path = inr found ->
        get_photo_datetime W path s = (inr (default fallback_dt found), s))
  /\ (exists dt s',
      get_video_datetime W path s = (inr dt, s')
      /\ date_counters s' = date_counters s /\ trace s' = trace s
      /\ ((exists text,
             creation_time_text W path = inr text
             /\ fromisoformat W (Py.replace "Z" "+00:00" text) = inr dt)
          \/ dt = fallback_dt)
      /\ (forall e, creation_time_text W path = inl e -> dt = fallback_dt)
      /\ (forall text e,
             creation_time_text W path = inr text ->
             fromisoformat W (Py.replace "Z" "+00:00" text) = inl e ->
             dt = fallback_dt)).
Proof.
  intros Hts Hfb. split; [|split].
  - intros e He. by rewrite get_photo_datetime_cases, Hts, Hfb, He.
  - intros found Hfound.
    rewrite get_photo_datetime_cases, Hts, Hfb, Hfound. by destruct found.
  - rewrite get_video_datetime_cases, Hts, Hfb. cbn zeta.
    destruct (creation_time_text W path) as [e|text].
    { destruct (isinstance e CalledProcessError); eexists _, _;
        (split; [reflexivity|]); cbn; repeat split; auto; done. }
    destruct (String.eqb text "").
    { eexists _, _; split; [reflexivity|]; cbn; repeat split; auto; done. }
    destruct (fromisoformat W _) as [e|dt] eqn:Hiso.
    + destruct (isinstance e ValueError), (isinstance e CalledProcessError);
        eexists _, _; (split; [reflexivity|]); cbn; repeat split; auto; done.
    + eexists _, _; split; [reflexivity|]; cbn; repeat split; eauto; try done.
      intros text' e [= <-]. congruence.
Qed.

Lemma photo_resolver_raises_on_metadata_error_witness :
  get_photo_datetime Sample.card "/cam/c.png" initial_state
  = (inl (Exn AttributeError "module 'piexif' has no attribute 'Invalidbox'"),
     initial_state)
  /\ (exists dt s',
      get_video_datetime Sample.card "/cam/v4.mp4" initial_state = (inr dt, s')).
Proof.
  split.
  - destruct (photo_resolver_raises_on_metadata_error Sample.card "/cam/c.png"
                initial_state Sample.card_mtime
                (mkDatetime 2022 1 1 0 0 0 0 None) eq_refl eq_refl)
      as (Hraise & _).
    exact (Hraise (Exn ValueError "Given file is neither JPEG nor TIFF.")
             eq_refl).
  - destruct (photo_resolver_raises_on_metadata_error Sample.card "/cam/v4.mp4"
                initial_state Sample.card_mtime
                (mkDatetime 2022 1 1 0 0 0 0 None) eq_refl eq_refl)
      as (_ & _ & dt & s' & H & _).
    by exists dt, s'.
Defined.

(** A photo that simply has no [DateTime] tag - any JPEG without EXIF -
    gets its modification time and no warning at all. *)
Lemma photo_without_date_is_silent :
  ~ (forall W path s ts fallback_dt,
       getmtime W path = inr ts ->
       fromtimestamp W ts = inr fallback_dt ->
       (forall dt, photo_metadata W path <> inr (Some dt)) ->
       exists line,
         get_photo_datetime W path s = (inr fallback_dt, printed s line)).
Proof.
  intros H.
  destruct (H Sample.card "/cam/a.jpg" initial_state Sample.card_mtime
              (mkDatetime 2022 1 1 0 0 0 0 None) eq_refl eq_refl)
    as [line Hline].
  - intros dt. vm_compute. discriminate.
  - rewrite photo_without_exif in Hline.
    injection Hline as Hout. by destruct (stdout initial_state).
Qed.

(** C3. A photo whose metadata cannot be read gets neither its
    modification time nor a warning.  With the modification time
    readable: when [piexif.load] refuses the file, when the value under
    the tag cannot be decoded, or when the text does not parse, the
    resolver raises the [AttributeError] of the missing name
    [piexif.Invalidbox] and has printed nothing - neither of the two
    warnings the [except] clauses hold is ever printed.  When the tag is
    absent or holds an empty value, the modification time is returned
    and nothing is printed either. *)
Theorem photo_metadata_error_gives_no_warning W path s ts fallback_dt :
  getmtime W path = inr ts ->
  fromtimestamp W ts = inr fallback_dt ->
  let raised : result datetime * state :=
    (inl (Exn AttributeError "module 'piexif' has no attribute 'Invalidbox'"),
     s) in
  (forall e,
     piexif_load W path = inl e -> get_photo_datetime W path s = raised)
  /\ (forall exif_dict ifd date_str e,
        piexif_load W path = inr exif_dict ->
        exif_dict !! "0th" = Some ifd ->
        ifd !! ImageIFD_DateTime = Some date_str ->
        truthy date_str = true ->
        decode_value (bytes_decode W) date_str = inl e ->
        get_photo_datetime W path s = raised)
  /\ (forall exif_dict ifd date_str text e,
        piexif_load W path = inr exif_dict ->
        exif_dict !! "0th" = Some ifd ->
        ifd !! ImageIFD_DateTime = Some date_str ->
        truthy date_str = true ->
        decode_value (bytes_decode W) date_str = inr text ->
        strptime W text "%Y:%m:%d %H:%M:%S" = inl e ->
        get_photo_datetime W path s = raised)
  /\ (forall exif_dict ifd,
        piexif_load W path = inr exif_dict ->
        exif_dict !! "0th" = Some ifd ->
        (ifd !! ImageIFD_DateTime = None
         \/ exists date_str,
              ifd !! ImageIFD_DateTime = Some date_str
              /\ truthy date_str = false) ->
        get_photo_datetime W path s = (inr fallback_dt, s))
  /\ (forall r s', get_photo_datetime W path s = (r, s') -> stdout s' = stdout s).
Proof.
  intros Hts Hfb raised. subst raised.
  split; [|split; [|split; [|split]]].
  - intros e He. rewrite get_photo_datetime_cases, Hts, Hfb.
    unfold photo_metadata. by rewrite He.
  - intros exif_dict ifd date_str e Hload H0 Htag Htrue Hdec.
    rewrite get_photo_datetime_cases, Hts, Hfb.
    unfold photo_metadata, dict_getitem.
    by rewrite Hload, H0, Htag, Htrue, Hdec.
  - intros exif_dict ifd date_str text e Hload H0 Htag Htrue Hdec Hparse.
    rewrite get_photo_datetime_cases, Hts, Hfb.
    unfold photo_metadata, dict_getitem.
    by rewrite Hload, H0, Htag, Htrue, Hdec, Hparse.
  - intros exif_dict ifd Hload H0 Htag.
    rewrite get_photo_datetime_cases, Hts, Hfb.
    unfold photo_metadata, dict_getitem. rewrite Hload, H0.
    destruct Htag as [-> | (date_str & -> & ->)]; done.
  - intros r s'. rewrite get_photo_datetime_cases, Hts, Hfb.
    destruct (photo_metadata W path) as [e|[dt|]]; by intros [= _ <-].
Qed.

Lemma photo_metadata_error_gives_no_warning_witness :
  get_photo_datetime Sample.card "/cam/d.jpg" initial_state
  = (inl (Exn AttributeError "module 'piexif' has no attribute 'Invalidbox'"),
     initial_state)
  /\ get_photo_datetime Sample.card "/cam/g.jpg" initial_state
     = (inl (Exn AttributeError
               "module 'piexif' has no attribute 'Invalidbox'"),
        initial_state)
  /\ get_photo_datetime Sample.card "/cam/a.jpg" initial_state
     = (inr (mkDatetime 2022 1 1 0 0 0 0 None), initial_state).
Proof.
  split; [|split].
  - exact (proj1 (photo_metadata_error_gives_no_warning Sample.card
                    "/cam/d.jpg" initial_state Sample.card_mtime
                    (mkDatetime 2022 1 1 0 0 0 0 None) eq_refl eq_refl)
             (Exn OtherError "unpack requires a buffer of 2 bytes") eq_refl).
  - destruct (photo_metadata_error_gives_no_warning Sample.card "/cam/g.jpg"
                initial_state Sample.card_mtime
                (mkDatetime 2022 1 1 0 0 0 0 None) eq_refl eq_refl)
      as (_ & _ & Hparse & _).
    eapply Hparse; [reflexivity | reflexivity | reflexivity | reflexivity
                   | reflexivity | vm_compute; reflexivity].
  - destruct (photo_metadata_error_gives_no_warning Sample.card "/cam/a.jpg"
                initial_state Sample.card_mtime
                (mkDatetime 2022 1 1 0 0 0 0 None) eq_refl eq_refl)
      as (_ & _ & _ & Habsent & _).
    eapply Habsent; [reflexivity | reflexivity | left; reflexivity].
Defined.

(** C4. A photo whose capture-time tag is there and parses under
    [%Y:%m:%d %H:%M:%S] resolves to exactly the parsed datetime, whatever
    the modification time of the file is, and nothing is printed. *)
Theorem photo_metadata_wins W path s ts fallback_dt exif_dict ifd date_str text dt :
  getmtime W path = inr ts ->
  fromtimestamp W ts = inr fallback_dt ->
  piexif_load W path = inr exif_dict ->
  exif_dict !! "0th" = Some ifd ->
  ifd !! ImageIFD_DateTime = Some date_str ->
  truthy date_str = true ->
  decode_value (bytes_decode W) date_str = inr text ->
  strptime W text "%Y:%m:%d %H:%M:%S" = inr dt ->
  get_photo_datetime W path s = (inr dt, s).
Proof.
  intros Hts Hfb Hload H0 Htag Htrue Hdec Hparse.
  rewrite get_photo_datetime_cases, Hts, Hfb.
  unfold photo_metadata, dict_getitem.
  by rewrite Hload, H0, Htag, Htrue, Hdec, Hparse.
Qed.

Lemma photo_metadata_wins_witness :
  get_photo_datetime Sample.card "/cam/b.jpg" initial_state
  = (inr (mkDatetime 2021 6 15 8 0 0 0 None), initial_state)
  /\ fromtimestamp Sample.card Sample.card_mtime
     = inr (mkDatetime 2022 1 1 0 0 0 0 None).
Proof.
  split; [|reflexivity].
  eapply (photo_metadata_wins Sample.card "/cam/b.jpg" initial_state
            Sample.card_mtime (mkDatetime 2022 1 1 0 0 0 0 None));
    [reflexivity | reflexivity | reflexivity | reflexivity | reflexivity
    | reflexivity | reflexivity | vm_compute; reflexivity].
Defined.

(** C5. A video on which the prober exits with a failure status, or for
    which it returns an empty string, resolves to the modification time
    of the file, and nothing is printed. *)
Theorem video_probe_failure_is_silent W path s ts fallback_dt :
  getmtime W path = inr ts ->
  fromtimestamp W ts = inr fallback_dt ->
  (forall e,
     check_output W (creation_time_probe_cmd path) = inl e ->
     isinstance e CalledProcessError = true ->
     get_video_datetime W path s = (inr fallback_dt, s))
  /\ (forall out text,
        check_output W (creation_time_probe_cmd path) = inr out ->
        bytes_decode W out = inr text ->
        Py.strip text = "" ->
        get_video_datetime W path s = (inr fallback_dt, s))
  /\ Py.strip "" = "".
Proof.
  intros Hts Hfb. repeat split.
  - intros e He Hcls. rewrite get_video_datetime_cases, Hts, Hfb.
    unfold creation_time_text. rewrite He. cbn zeta. by rewrite Hcls.
  - intros out text Hout Hdec Hstrip.
    rewrite get_video_datetime_cases, Hts, Hfb.
    unfold creation_time_text. by rewrite Hout, Hdec, Hstrip.
Qed.

Lemma video_probe_failure_is_silent_witness :
  get_video_datetime Sample.card "/cam/v2.avi" initial_state
  = (inr (mkDatetime 2022 1 1 0 0 0 0 None), initial_state)
  /\ get_video_datetime Sample.card "/cam/v3.mkv" initial_state
     = (inr (mkDatetime 2022 1 1 0 0 0 0 None), initial_state).
Proof.
  split.
  - destruct (video_probe_failure_is_silent Sample.card "/cam/v2.avi"
                initial_state Sample.card_mtime
                (mkDatetime 2022 1 1 0 0 0 0 None) eq_refl eq_refl)
      as (Hfail & _).
    eapply Hfail; [vm_compute; reflexivity | reflexivity].
  - destruct (video_probe_failure_is_silent Sample.card "/cam/v3.mkv"
                initial_state Sample.card_mtime
                (mkDatetime 2022 1 1 0 0 0 0 None) eq_refl eq_refl)
      as (_ & Hempty & _).
    eapply Hempty; [vm_compute; reflexivity | reflexivity | reflexivity].
Defined.

(** C6. When the prober returns a string that is not empty, the
    resolver parses it as ISO 8601 after putting [+00:00] for [Z]: a
    string with a [Z] at its end and nowhere else is read as the same
    string with the offset [+00:00], and one without [Z] as it is.  If
    the result parses, that datetime is returned and nothing is printed;
    if parsing fails, one warning is printed and the modification time
    is returned. *)
Theorem video_creation_time_parsed W path s ts fallback_dt out text :
  getmtime W path = inr ts ->
  fromtimestamp W ts = inr fallback_dt ->
  check_output W (creation_time_probe_cmd path) = inr out ->
  bytes_decode W out = inr text ->
  Py.strip text <> "" ->
  let creation_time_str := Py.strip text in
  (forall dt,
     fromisoformat W (Py.replace "Z" "+00:00" creation_time_str) = inr dt ->
     get_video_datetime W path s = (inr dt, s))
  /\ (forall e,
        fromisoformat W (Py.replace "Z" "+00:00" creation_time_str) = inl e ->
        isinstance e ValueError = true ->
        get_video_datetime W path s
        = (inr fallback_dt,
           printed s ("Warning: Could not parse video creation time '"
                      +:+ creation_time_str +:+ "'. Using mtime.")))
  /\ (forall body,
        all (fun c => negb (Ascii.eqb c "Z")) body = true ->
        creation_time_str = body +:+ "Z" ->
        Py.replace "Z" "+00:00" creation_time_str = body +:+ "+00:00")
  /\ (all (fun c => negb (Ascii.eqb c "Z")) creation_time_str = true ->
      Py.replace "Z" "+00:00" creation_time_str = creation_time_str).
Proof.
  intros Hts Hfb Hout Hdec Hne str.
  assert (String.eqb str "" = false) as Hnonempty by by apply String.eqb_neq.
  repeat split.
  - intros dt Hiso. rewrite get_video_datetime_cases, Hts, Hfb.
    unfold creation_time_text. rewrite Hout, Hdec. cbn zeta.
    fold str. by rewrite Hnonempty, Hiso.
  - intros e Hiso Hcls. rewrite get_video_datetime_cases, Hts, Hfb.
    unfold creation_time_text. rewrite Hout, Hdec. cbn zeta.
    fold str. by rewrite Hnonempty, Hiso, Hcls.
  - intros body Hbody ->. by apply replace_trailing.
  - apply replace_absent.
Qed.

Lemma video_creation_time_parsed_witness :
  get_video_datetime Sample.card "/cam/v1.MOV" initial_state
  = (inr (mkDatetime 2023 12 14 10 30 0 0 (Some 0%Z)), initial_state)
  /\ Sample.fromisoformat_basic "2023-12-14T10:30:00+00:00"
     = inr (mkDatetime 2023 12 14 10 30 0 0 (Some 0%Z))
  /\ get_video_datetime Sample.card "/cam/v4.mp4" initial_state
     = (inr (mkDatetime 2022 1 1 0 0 0 0 None),
        printed initial_state
          "Warning: Could not parse video creation time 'yesterday'. Using mtime.").
Proof.
  split; [|split].
  - destruct (video_creation_time_parsed Sample.card "/cam/v1.MOV"
                initial_state Sample.card_mtime
                (mkDatetime 2022 1 1 0 0 0 0 None)
                (Sample.ascii_bytes ("2023-12-14T10:30:00.000000Z" +:+ newline))
                ("2023-12-14T10:30:00.000000Z" +:+ newline)
                eq_refl eq_refl eq_refl eq_refl)
      as (Hok & _).
    + vm_compute. discriminate.
    + apply Hok. vm_compute. reflexivity.
  - vm_compute. reflexivity.
  - destruct (video_creation_time_parsed Sample.card "/cam/v4.mp4"
                initial_state Sample.card_mtime
                (mkDatetime 2022 1 1 0 0 0 0 None)
                (Sample.ascii_bytes ("yesterday" +:+ newline))
                ("yesterday" +:+ newline)
                eq_refl eq_refl eq_refl eq_refl)
      as (_ & Hbad & _).
    + vm_compute. discriminate.
    + eapply Hbad; [vm_compute; reflexivity | reflexivity].
Defined.

(** ** The video converter *)

Lemma filename_mp4 dt c : ends_with ".mp4" (filename dt c ".mp4") = true.
Proof.
  unfold filename. rewrite <-!app_assoc. apply ends_with_app.
Qed.

(** C7. A conversion - the resolver has given a date and the audio
    prober an answer - runs exactly one command: [ffmpeg] on the source,
    with the metadata of the source carried over, the video stream
    copied and the fast-start layout asked for; the audio stream copied
    exactly when the codec name probed for the first audio stream is
    [aac], and re-encoded to AAC at 192k otherwise, also when the prober
    exits with a failure status and the name is the sentinel [unknown];
    and as its last argument the destination, in the output directory,
    named by the date and the counter taken, ending in [.mp4] whatever
    the container of the source.  When the command succeeds that
    destination is returned; when it fails its exception leaves the
    converter. *)
Theorem convert_video_command W src dst_dir s dt s1 :
  get_video_datetime W src s = (inr dt, s1) ->
  let dst_path :=
    Py.path_join dst_dir
      (strftime_Y_m_d dt +:+ "_"
       +:+ format_0wd 3 (counter_of (date_counters s) dt + 1) +:+ ".mp4") in
  let cmd (audio_codec : string) :=
    ["ffmpeg"; "-i"; src; "-map_metadata"; "0";
     "-c:v"; "copy"; "-movflags"; "+faststart"]
    ++ (if String.eqb audio_codec "aac"
        then ["-c:a"; "copy"]
        else ["-c:a"; "aac"; "-b:a"; "192k"])
    ++ [dst_path] in
  let converts (audio_codec : string) :=
    (subprocess_run W (cmd audio_codec) = inr tt ->
     convert_video W src dst_dir s
     = (inr dst_path,
        printed (logged (named s1 dt) (Ev_run (cmd audio_codec) true))
          ("-> Converted to: " +:+ dst_path)))
    /\ (forall e,
          subprocess_run W (cmd audio_codec) = inl e ->
          convert_video W src dst_dir s
          = (inl e, logged (named s1 dt) (Ev_run (cmd audio_codec) false))) in
  ends_with ".mp4" dst_path = true
  /\ (forall e,
        check_output W (audio_codec_probe_cmd src) = inl e ->
        isinstance e CalledProcessError = true ->
        converts "unknown")
  /\ (forall out text,
        check_output W (audio_codec_probe_cmd src) = inr out ->
        bytes_decode W out = inr text ->
        converts (Py.strip text))
  /\ cmd "aac"
     = ["ffmpeg"; "-i"; src; "-map_metadata"; "0"; "-c:v"; "copy";
        "-movflags"; "+faststart"; "-c:a"; "copy"; dst_path]
  /\ cmd "unknown"
     = ["ffmpeg"; "-i"; src; "-map_metadata"; "0"; "-c:v"; "copy";
        "-movflags"; "+faststart"; "-c:a"; "aac"; "-b:a"; "192k"; dst_path]
  /\ (forall ev,
        trace (logged (named s1 dt) ev) = trace s ++ [ev]
        /\ date_counters (logged (named s1 dt) ev) !! strftime_Y_m_d dt
           = Some (counter_of (date_counters s) dt + 1)).
Proof.
  intros Hres.
  pose proof (get_video_datetime_frame W src s) as [Hc Ht].
  rewrite Hres in Hc, Ht. cbn [snd] in Hc, Ht.
  cbn zeta. rewrite Nat.add_1_r.
  assert (forall codec,
    probed_audio_codec W src = inr codec ->
    (subprocess_run W
       (["ffmpeg"; "-i"; src; "-map_metadata"; "0";
         "-c:v"; "copy"; "-movflags"; "+faststart"]
        ++ (if String.eqb codec "aac"
            then ["-c:a"; "copy"]
            else ["-c:a"; "aac"; "-b:a"; "192k"])
        ++ [Py.path_join dst_dir
              (strftime_Y_m_d dt +:+ "_"
               +:+ format_0wd 3 (S (counter_of (date_counters s) dt))
               +:+ ".mp4")]) = inr tt ->
     convert_video W src dst_dir s
     = (inr (Py.path_join dst_dir
               (strftime_Y_m_d dt +:+ "_"
                +:+ format_0wd 3 (S (counter_of (date_counters s) dt))
                +:+ ".mp4")),
        printed
          (logged (named s1 dt)
             (Ev_run
                (["ffmpeg"; "-i"; src; "-map_metadata"; "0";
                  "-c:v"; "copy"; "-movflags"; "+faststart"]
                 ++ (if String.eqb codec "aac"
                     then ["-c:a"; "copy"]
                     else ["-c:a"; "aac"; "-b:a"; "192k"])
                 ++ [Py.path_join dst_dir
                       (strftime_Y_m_d dt +:+ "_"
                        +:+ format_0wd 3 (S (counter_of (date_counters s) dt))
                        +:+ ".mp4")]) true))
          ("-> Converted to: "
           +:+ Py.path_join dst_dir
                 (strftime_Y_m_d dt +:+ "_"
                  +:+ format_0wd 3 (S (counter_of (date_counters s) dt))
                  +:+ ".mp4"))))
    /\ (forall e,
          subprocess_run W
            (["ffmpeg"; "-i"; src; "-map_metadata"; "0";
              "-c:v"; "copy"; "-movflags"; "+faststart"]
             ++ (if String.eqb codec "aac"
                 then ["-c:a"; "copy"]
                 else ["-c:a"; "aac"; "-b:a"; "192k"])
             ++ [Py.path_join dst_dir
                   (strftime_Y_m_d dt +:+ "_"
                    +:+ format_0wd 3 (S (counter_of (date_counters s) dt))
                    +:+ ".mp4")]) = inl e ->
          convert_video W src dst_dir s
          = (inl e,
             logged (named s1 dt)
               (Ev_run
                  (["ffmpeg"; "-i"; src; "-map_metadata"; "0";
                    "-c:v"; "copy"; "-movflags"; "+faststart"]
                   ++ (if String.eqb codec "aac"
                       then ["-c:a"; "copy"]
                       else ["-c:a"; "aac"; "-b:a"; "192k"])
                   ++ [Py.path_join dst_dir
                         (strftime_Y_m_d dt +:+ "_"
                          +:+ format_0wd 3
                                (S (counter_of (date_counters s) dt))
                          +:+ ".mp4")]) false)))) as Hconv.
  { intros codec Hcodec.
    rewrite convert_video_cases, Hres. cbn zeta. rewrite Hcodec, Hc.
    assert (ffmpeg_cmd src codec
              (Py.path_join dst_dir
                 (filename dt (S (counter_of (date_counters s) dt)) ".mp4"))
            = ["ffmpeg"; "-i"; src; "-map_metadata"; "0";
               "-c:v"; "copy"; "-movflags"; "+faststart"]
              ++ (if String.eqb codec "aac"
                  then ["-c:a"; "copy"]
                  else ["-c:a"; "aac"; "-b:a"; "192k"])
              ++ [Py.path_join dst_dir
                    (strftime_Y_m_d dt +:+ "_"
                     +:+ format_0wd 3 (S (counter_of (date_counters s) dt))
                     +:+ ".mp4")]) as ->
      by (unfold ffmpeg_cmd, filename; by destruct (String.eqb codec "aac")).
    unfold filename.
    split; [intros -> | intros e ->]; reflexivity. }
  split; [apply path_join_ends_with, (filename_mp4 dt)|].
  split.
  { intros e He Hcls. apply Hconv. unfold probed_audio_codec.
    by rewrite He, Hcls. }
  split.
  { intros out text Hout Hdec. apply Hconv. unfold probed_audio_codec.
    by rewrite Hout, Hdec. }
  split; [reflexivity|]. split; [reflexivity|].
  intros ev. cbn. rewrite Ht, Hc, lookup_insert_eq. done.
Qed.

Lemma convert_video_command_witness :
  convert_video Sample.card "/cam/v1.MOV" "/out" initial_state
  = (inr "/out/2023_12_14_001.mp4",
     mkState {[ "2023_12_14" := 1 ]}
       ["-> Converted to: /out/2023_12_14_001.mp4"]
       [Ev_run ["ffmpeg"; "-i"; "/cam/v1.MOV"; "-map_metadata"; "0";
                "-c:v"; "copy"; "-movflags"; "+faststart"; "-c:a"; "copy";
                "/out/2023_12_14_001.mp4"] true]).
Proof.
  destruct (convert_video_command Sample.card "/cam/v1.MOV" "/out"
              initial_state (mkDatetime 2023 12 14 10 30 0 0 (Some 0%Z))
              initial_state video_with_creation_time)
    as (_ & _ & Hprobe & _).
  destruct (Hprobe (Sample.ascii_bytes ("aac" +:+ newline))
              ("aac" +:+ newline) eq_refl eq_refl) as [Hok _].
  rewrite (Hok eq_refl). vm_compute. reflexivity.
Defined.

(** ** The dispatcher *)

Example card_photo_run :
  let run := recurse_and_process Sample.card "photo" "/cam" "/out" initial_state in
  run.1 = inr tt
  /\ produced (trace run.2)
     = ["/out/2022_01_01_001.jpg"; "/out/2021_06_15_001.jpg";
        "/out/2021_06_15_003.jpg"]
  /\ date_counters run.2 !! "2021_06_15" = Some 3
  /\ date_counters run.2 !! "2022_01_01" = Some 1.
Proof. vm_compute. repeat split. Qed.

Example card_video_run :
  let run := recurse_and_process Sample.card "video" "/cam" "/out" initial_state in
  run.1 = inr tt
  /\ produced (trace run.2)
     = ["/out/2023_12_14_001.mp4"; "/out/2022_01_01_001.mp4";
        "/out/2022_01_01_003.mp4"]
  /\ date_counters run.2 !! "2022_01_01" = Some 3.
Proof. vm_compute. repeat split. Qed.

Lemma recurse_and_process_unfold W MODE input_dir output_dir :
  recurse_and_process W MODE input_dir output_dir
  = (ensure_dir W output_dir ;;;
     print ("Starting processing from " +:+ input_dir +:+ "...") ;;;
     walk_loop W MODE (walk W input_dir) output_dir ;;;
     print (newline +:+ "Processing complete."))%py.
Proof. reflexivity. Qed.

(** C8. [process_file] never raises: whatever the photo copier or the
    video converter raises for a file is caught and printed with the
    path of the file and the text of the exception, and the loop over
    the tree goes on to the next file, to the last one.  A failed run of
    the encoder is told apart in the line printed, and is otherwise
    treated like any other failure.  A file whose extension is in
    neither set, or that the mode rules out, is passed over: nothing
    happens and nothing is raised. *)
Theorem dispatcher_contains_failures W MODE output_dir :
  (forall path s, (process_file W MODE path output_dir s).1 = inr tt)
  /\ (forall tree s,
        walk_loop W MODE tree output_dir s
        = (inr tt,
           fold_left
             (fun st path => (process_file W MODE path output_dir st).2)
             (walked_paths tree) s))
  /\ (forall path s e s',
        photo_gate MODE path = true ->
        copy_photo W path output_dir
          (printed s (newline +:+ "Copying photo: " +:+ path)) = (inl e, s') ->
        process_file W MODE path output_dir s
        = (inr tt,
           printed s' ("FATAL Error copying photo " +:+ path +:+ ": "
                       +:+ exn_str e)))
  /\ (forall path s e s',
        photo_gate MODE path = false ->
        video_gate MODE path = true ->
        convert_video W path output_dir
          (printed s (newline +:+ "Processing video: " +:+ path)) = (inl e, s') ->
        process_file W MODE path output_dir s
        = (inr tt,
           printed s'
             (if isinstance e CalledProcessError
              then "FATAL Error converting video " +:+ path
                   +:+ " (FFmpeg failed): " +:+ exn_str e
              else "FATAL Error converting video " +:+ path +:+ ": "
                   +:+ exn_str e)))
  /\ (forall path s,
        photo_gate MODE path = false ->
        video_gate MODE path = false ->
        process_file W MODE path output_dir s = (inr tt, s))
  /\ (forall path,
        photo_gate MODE path = true
        <-> Py.lower (Py.splitext_ext path) ∈ PHOTO_EXTENSIONS
            /\ (MODE = "photo" \/ MODE = "both"))
  /\ (forall path,
        video_gate MODE path = true
        <-> Py.lower (Py.splitext_ext path) ∈ VIDEO_EXTENSIONS
            /\ (MODE = "video" \/ MODE = "both")).
Proof.
  split; [intros; apply process_file_returns|].
  split; [intros; apply walk_loop_total|].
  split.
  { intros path s e s' Hgate Hcopy.
    by rewrite process_file_cases, Hgate, Hcopy. }
  split.
  { intros path s e s' Hphoto Hvideo Hconv.
    by rewrite process_file_cases, Hphoto, Hvideo, Hconv. }
  split.
  { intros path s Hphoto Hvideo.
    by rewrite process_file_cases, Hphoto, Hvideo. }
  split; intros path.
  - unfold photo_gate.
    rewrite andb_true_iff, !bool_decide_eq_true, !elem_of_cons, elem_of_nil.
    tauto.
  - unfold video_gate.
    rewrite andb_true_iff, !bool_decide_eq_true, !elem_of_cons, elem_of_nil.
    tauto.
Qed.

Lemma dispatcher_contains_failures_witness :
  process_file Sample.card "both" "/cam/e.jpg" "/out" initial_state
  = (inr tt,
     printed
       (copy_photo Sample.card "/cam/e.jpg" "/out"
          (printed initial_state (newline +:+ "Copying photo: /cam/e.jpg"))).2
       "FATAL Error copying photo /cam/e.jpg: [Errno 28] No space left on device")
  /\ process_file Sample.card "both" "/cam/notes.txt" "/out" initial_state
     = (inr tt, initial_state).
Proof.
  destruct (dispatcher_contains_failures Sample.card "both" "/out")
    as (_ & _ & Hphoto & _ & Hskip & _).
  split.
  - refine (Hphoto "/cam/e.jpg" initial_state
              (Exn OSError "[Errno 28] No space left on device") _ _ _);
      vm_compute; reflexivity.
  - apply Hskip; vm_compute; reflexivity.
Defined.

Lemma produced_snoc_failed tr ev :
  produced_by ev = None -> produced (tr ++ [ev]) = produced tr.
Proof.
  intros Hev. unfold produced. rewrite omap_app. cbn. rewrite Hev.
  apply List.app_nil_r.
Qed.

(** What a failure after the namer leaves behind: the entry of the date
    one up, no new file, and the next name for that date two up. *)
Lemma consumed_after_failure s0 s1 dt ev line :
  date_counters s1 = date_counters s0 ->
  trace s1 = trace s0 ->
  produced_by ev = None ->
  let s' := printed (logged (named s1 dt) ev) line in
  date_counters s' !! strftime_Y_m_d dt
  = Some (counter_of (date_counters s0) dt + 1)
  /\ produced (trace s') = produced (trace s0)
  /\ (forall dt' ext',
        date_of dt' = date_of dt ->
        (generate_name_with_counter dt' ext' s').1
        = inr (filename dt' (counter_of (date_counters s0) dt + 2) ext')).
Proof.
  intros Hc Ht Hev s'. subst s'. unfold printed, logged, named.
  cbn [date_counters trace stdout]. rewrite Hc, Ht. repeat split.
  - rewrite lookup_insert_eq. f_equal. lia.
  - by apply produced_snoc_failed.
  - intros dt' ext' Hd. rewrite generate_name_step. cbn [fst date_counters].
    rewrite counter_of_insert, decide_True by done. do 2 f_equal. lia.
Qed.

(** C9. Taking a counter and producing the file are two steps. When the
    copy of a photo, or the conversion of a video, raises after the namer
    has been called, the entry of the date stays one up: the counter is
    spent, no file carries it, and the next file of that date gets the
    one after it - the counters of the files actually produced for a date
    can have gaps. *)
Theorem counter_consumed_on_failure W MODE output_dir path s :
  (forall dt s1 e,
     photo_gate MODE path = true ->
     get_photo_datetime W path
       (printed s (newline +:+ "Copying photo: " +:+ path)) = (inr dt, s1) ->
     copy2 W path
       (Py.path_join output_dir
          (filename dt (S (counter_of (date_counters s) dt))
             (Py.lower (Py.splitext_ext path)))) = inl e ->
     let s' := (process_file W MODE path output_dir s).2 in
     date_counters s' !! strftime_Y_m_d dt
     = Some (counter_of (date_counters s) dt + 1)
     /\ produced (trace s') = produced (trace s)
     /\ (forall dt' ext',
           date_of dt' = date_of dt ->
           (generate_name_with_counter dt' ext' s').1
           = inr (filename dt' (counter_of (date_counters s) dt + 2) ext')))
  /\ (forall dt s1 audio_codec e,
     photo_gate MODE path = false ->
     video_gate MODE path = true ->
     get_video_datetime W path
       (printed s (newline +:+ "Processing video: " +:+ path)) = (inr dt, s1) ->
     probed_audio_codec W path = inr audio_codec ->
     subprocess_run W
       (ffmpeg_cmd path audio_codec
          (Py.path_join output_dir
             (filename dt (S (counter_of (date_counters s) dt)) ".mp4")))
     = inl e ->
     let s' := (process_file W MODE path output_dir s).2 in
     date_counters s' !! strftime_Y_m_d dt
     = Some (counter_of (date_counters s) dt + 1)
     /\ produced (trace s') = produced (trace s)
     /\ (forall dt' ext',
           date_of dt' = date_of dt ->
           (generate_name_with_counter dt' ext' s').1
           = inr (filename dt' (counter_of (date_counters s) dt + 2) ext'))).
Proof.
  split.
  - intros dt s1 e Hgate Hres Hcopy.
    pose proof (get_photo_datetime_frame W path
                  (printed s (newline +:+ "Copying photo: " +:+ path)))
      as [Hc Ht].
    rewrite Hres in Hc, Ht. cbn [snd printed date_counters trace] in Hc, Ht.
    rewrite process_file_cases, Hgate, copy_photo_cases, Hres. cbn zeta.
    rewrite Hc, Hcopy. cbn [snd].
    by apply consumed_after_failure.
  - intros dt s1 audio_codec e Hphoto Hvideo Hres Hcodec Hrun.
    pose proof (get_video_datetime_frame W path
                  (printed s (newline +:+ "Processing video: " +:+ path)))
      as [Hc Ht].
    rewrite Hres in Hc, Ht. cbn [snd printed date_counters trace] in Hc, Ht.
    rewrite process_file_cases, Hphoto, Hvideo, convert_video_cases, Hres.
    cbn zeta. rewrite Hcodec, Hc, Hrun. cbn [snd].
    by apply consumed_after_failure.
Qed.

Lemma counter_consumed_on_failure_witness :
  (let s' := (process_file Sample.card "photo" "/cam/e.jpg" "/out"
                initial_state).2 in
   date_counters s' !! "2021_06_15" = Some 1
   /\ produced (trace s') = [])
  /\ (let s' := (process_file Sample.card "video" "/cam/v3.mkv" "/out"
                   initial_state).2 in
      date_counters s' !! "2022_01_01" = Some 1
      /\ produced (trace s') = []).
Proof.
  destruct (counter_consumed_on_failure Sample.card "photo" "/out"
              "/cam/e.jpg" initial_state) as [Hphoto _].
  destruct (counter_consumed_on_failure Sample.card "video" "/out"
              "/cam/v3.mkv" initial_state) as [_ Hvideo].
  split.
  - destruct (Hphoto (mkDatetime 2021 6 15 9 0 0 0 None)
                (printed initial_state (newline +:+ "Copying photo: /cam/e.jpg"))
                (Exn OSError "[Errno 28] No space left on device"))
      as (Hcount & Hfiles & _);
      [vm_compute; reflexivity | vm_compute; reflexivity
      | vm_compute; reflexivity |].
    split; [exact Hcount | exact Hfiles].
  - destruct (Hvideo (mkDatetime 2022 1 1 0 0 0 0 None)
                (printed initial_state
                   (newline +:+ "Processing video: /cam/v3.mkv"))
                "mp3"
                (Exn CalledProcessError
                   "Command 'ffmpeg' returned non-zero exit status 1."))
      as (Hcount & Hfiles & _);
      [vm_compute; reflexivity | vm_compute; reflexivity
      | vm_compute; reflexivity | vm_compute; reflexivity
      | vm_compute; reflexivity |].
    split; [exact Hcount | exact Hfiles].
Defined.

(** * More of the pipeline *)

(** ** One file at a time *)

Lemma only_prints_refl s : only_prints s s.
Proof. repeat split. exists []. by rewrite List.app_nil_r. Qed.

Lemma only_prints_printed s s' line :
  only_prints s s' -> only_prints s (printed s' line).
Proof.
  intros (Hc & Ht & lines & Hl). repeat split; [done..|].
  exists (lines ++ [line]). cbn. by rewrite Hl, List.app_assoc.
Qed.

Lemma only_prints_after_print s s' line :
  only_prints (printed s line) s' -> only_prints s s'.
Proof.
  intros (Hc & Ht & lines & Hl). repeat split; [done..|].
  exists (line :: lines). rewrite Hl. cbn. by rewrite <-List.app_assoc.
Qed.

Lemma took_printed s s' dt evs line :
  took s s' dt evs -> took s (printed s' line) dt evs.
Proof.
  intros (Hc & Ht & lines & Hl). repeat split; [done..|].
  exists (lines ++ [line]). cbn. by rewrite Hl, List.app_assoc.
Qed.

Lemma took_after_print s s' dt evs line :
  took (printed s line) s' dt evs -> took s s' dt evs.
Proof.
  intros (Hc & Ht & lines & Hl). repeat split; [done..|].
  exists (line :: lines). rewrite Hl. cbn. by rewrite <-List.app_assoc.
Qed.

(** From a state that differs from [s] by printed lines only. *)
Lemma took_named s s1 dt evs :
  only_prints s s1 -> took s (fold_left logged evs (named s1 dt)) dt evs.
Proof.
  intros (Hc & Ht & lines & Hl).
  assert (forall s2,
    date_counters (fold_left logged evs s2) = date_counters s2
    /\ trace (fold_left logged evs s2) = trace s2 ++ evs
    /\ stdout (fold_left logged evs s2) = stdout s2) as Hfold.
  { induction evs as [|ev evs IH]; intros s2; cbn [fold_left].
    - by rewrite List.app_nil_r.
    - destruct (IH (logged s2 ev)) as (-> & -> & ->). cbn.
      by rewrite <-List.app_assoc. }
  destruct (Hfold (named s1 dt)) as (Hc' & Ht' & Hl').
  repeat split.
  - rewrite Hc'. cbn. by rewrite Hc.
  - rewrite Ht'. cbn. by rewrite Ht.
  - exists lines. rewrite Hl'. cbn. done.
Qed.

Lemma get_photo_datetime_prints W path s :
  only_prints s (get_photo_datetime W path s).2.
Proof.
  rewrite get_photo_datetime_cases.
  repeat case_match; cbn [snd];
    auto using only_prints_refl, only_prints_printed.
Qed.

Lemma get_video_datetime_prints W path s :
  only_prints s (get_video_datetime W path s).2.
Proof.
  rewrite get_video_datetime_cases. cbn zeta.
  repeat case_match; cbn [snd];
    auto using only_prints_refl, only_prints_printed.
Qed.

Lemma copy_photo_step W src dst_dir s :
  let s' := (copy_photo W src dst_dir s).2 in
  only_prints s s'
  \/ exists dt ok,
       took s s' dt
         [Ev_copy2 src
            (Py.path_join dst_dir
               (filename dt (S (counter_of (date_counters s) dt))
                  (Py.lower (Py.splitext_ext src))))
            ok].
Proof.
  cbn zeta. rewrite copy_photo_cases.
  pose proof (get_photo_datetime_prints W src s) as Hres.
  destruct (get_photo_datetime W src s) as [[e|dt] s1]; cbn [snd] in *;
    [by left|].
  right. exists dt. cbn zeta.
  assert (date_counters s1 = date_counters s) as -> by apply Hres.
  destruct (copy2 W src _) as [e|[]]; cbn [snd]; eexists.
  - by apply (took_named s s1 dt [_]).
  - by apply took_printed, (took_named s s1 dt [_]).
Qed.

Lemma convert_video_step W src dst_dir s :
  let s' := (convert_video W src dst_dir s).2 in
  only_prints s s'
  \/ exists dt,
       took s s' dt []
       \/ exists audio_codec ok,
            took s s' dt
              [Ev_run
                 (ffmpeg_cmd src audio_codec
                    (Py.path_join dst_dir
                       (filename dt (S (counter_of (date_counters s) dt))
                          ".mp4")))
                 ok].
Proof.
  cbn zeta. rewrite convert_video_cases.
  pose proof (get_video_datetime_prints W src s) as Hres.
  destruct (get_video_datetime W src s) as [[e|dt] s1]; cbn [snd] in *;
    [by left|].
  right. exists dt. cbn zeta.
  assert (date_counters s1 = date_counters s) as -> by apply Hres.
  destruct (probed_audio_codec W src) as [e|codec]; cbn [snd].
  { left. by apply (took_named s s1 dt []). }
  right. exists codec.
  destruct (subprocess_run W _) as [e|[]]; cbn [snd]; eexists.
  - by apply (took_named s s1 dt [_]).
  - by apply took_printed, (took_named s s1 dt [_]).
Qed.

(** [process_file], as a step from state to state. *)
Lemma process_file_took W MODE path output_dir s :
  let s' := (process_file W MODE path output_dir s).2 in
  only_prints s s'
  \/ exists dt,
       took s s' dt []
       \/ (exists ok,
             photo_gate MODE path = true
             /\ took s s' dt
                  [Ev_copy2 path
                     (Py.path_join output_dir
                        (filename dt (S (counter_of (date_counters s) dt))
                           (Py.lower (Py.splitext_ext path))))
                     ok])
       \/ (exists audio_codec ok,
             photo_gate MODE path = false
             /\ video_gate MODE path = true
             /\ took s s' dt
                  [Ev_run
                     (ffmpeg_cmd path audio_codec
                        (Py.path_join output_dir
                           (filename dt (S (counter_of (date_counters s) dt))
                              ".mp4")))
                     ok]).
Proof.
  cbn zeta. rewrite process_file_cases.
  destruct (photo_gate MODE path) eqn:Hphoto;
    [|destruct (video_gate MODE path) eqn:Hvideo].
  - pose proof (copy_photo_step W path output_dir
                  (printed s (newline +:+ "Copying photo: " +:+ path)))
      as Hstep. cbn zeta in Hstep.
    destruct (copy_photo W path output_dir _) as [[e|p] s1]; cbn [snd] in *;
      (destruct Hstep as [Hp | (dt & ok & Ht)];
       [left | right; exists dt; right; left; exists ok; split; [done|]]);
      eauto using only_prints_printed, only_prints_after_print,
        took_printed, took_after_print.
  - pose proof (convert_video_step W path output_dir
                  (printed s (newline +:+ "Processing video: " +:+ path)))
      as Hstep. cbn zeta in Hstep.
    destruct (convert_video W path output_dir _) as [[e|p] s1];
      cbn [snd] in *;
      (destruct Hstep as [Hp | (dt & [Ht | (codec & ok & Ht)])];
       [left | right; exists dt; left
       | right; exists dt; right; right; exists codec, ok;
         split; [done|split; [done|]]]);
      eauto using only_prints_printed, only_prints_after_print,
        took_printed, took_after_print.
  - left. apply only_prints_refl.
Qed.

(** X1. For one file [process_file] only prints, or takes exactly one
    counter and makes at most one attempt to write: a copy of the file
    itself when the photo gate is open, a run of [ffmpeg] on it when the
    video gate is.  The counter taken is the one in the name written
    to. *)
Theorem process_file_one_counter_one_write W MODE path output_dir s :
  let s' := (process_file W MODE path output_dir s).2 in
  only_prints s s'
  \/ exists dt,
       took s s' dt []
       \/ (exists ok,
             photo_gate MODE path = true
             /\ took s s' dt
                  [Ev_copy2 path
                     (Py.path_join output_dir
                        (filename dt (S (counter_of (date_counters s) dt))
                           (Py.lower (Py.splitext_ext path))))
                     ok])
       \/ (exists audio_codec ok,
             photo_gate MODE path = false
             /\ video_gate MODE path = true
             /\ took s s' dt
                  [Ev_run
                     (ffmpeg_cmd path audio_codec
                        (Py.path_join output_dir
                           (filename dt (S (counter_of (date_counters s) dt))
                              ".mp4")))
                     ok]).
Proof.
  cbn zeta. rewrite process_file_cases.
  destruct (photo_gate MODE path) eqn:Hphoto;
    [|destruct (video_gate MODE path) eqn:Hvideo].
  - pose proof (copy_photo_step W path output_dir
                  (printed s (newline +:+ "Copying photo: " +:+ path)))
      as Hstep. cbn zeta in Hstep.
    destruct (copy_photo W path output_dir _) as [[e|p] s1]; cbn [snd] in *;
      (destruct Hstep as [Hp | (dt & ok & Ht)];
       [left | right; exists dt; right; left; exists ok; split; [done|]]);
      eauto using only_prints_printed, only_prints_after_print,
        took_printed, took_after_print.
  - pose proof (convert_video_step W path output_dir
                  (printed s (newline +:+ "Processing video: " +:+ path)))
      as Hstep. cbn zeta in Hstep.
    destruct (convert_video W path output_dir _) as [[e|p] s1];
      cbn [snd] in *;
      (destruct Hstep as [Hp | (dt & [Ht | (codec & ok & Ht)])];
       [left | right; exists dt; left
       | right; exists dt; right; right; exists codec, ok;
         split; [done|split; [done|]]]);
      eauto using only_prints_printed, only_prints_after_print,
        took_printed, took_after_print.
  - left. apply only_prints_refl.
Qed.

(** ** The whole run *)

(** [recurse_and_process], evaluated. *)
Lemma recurse_and_process_eval W MODE input_dir output_dir s :
  recurse_and_process W MODE input_dir output_dir s
  = let run s0 :=
      (inr tt,
       printed
         (dispatched W MODE (walked_paths (walk W input_dir)) output_dir
            (printed s0 ("Starting processing from " +:+ input_dir +:+ "...")))
         (newline +:+ "Processing complete.")) in
    if path_exists W output_dir then run s
    else match makedirs W output_dir with
         | inl e => (inl e, logged s (Ev_makedirs output_dir false))
         | inr _ => run (logged s (Ev_makedirs output_dir true))
         end.
Proof.
  rewrite recurse_and_process_unfold. unfold ensure_dir, dispatched.
  unfold bind at 1.
  destruct (path_exists W output_dir); cbn [negb].
  - unfold ret at 1, bind at 1, print at 1, bind at 1.
    rewrite walk_loop_total. reflexivity.
  - unfold call_logged.
    destruct (makedirs W output_dir) as [e|[]]; [reflexivity|].
    unfold bind at 1, print at 1, bind at 1.
    rewrite walk_loop_total. reflexivity.
Qed.

(** X2. A run raises only when the output directory is missing and
    cannot be made, and then before anything is printed or any file is
    looked at.  Otherwise it returns normally: it prints the opening
    line, dispatches every file the walk lists, once and in the order
    listed, and prints the closing line. *)
Theorem run_fails_only_at_output_dir W MODE input_dir output_dir s :
  recurse_and_process W MODE input_dir output_dir s
  = let run s0 :=
      (inr tt,
       printed
         (dispatched W MODE (walked_paths (walk W input_dir)) output_dir
            (printed s0 ("Starting processing from " +:+ input_dir +:+ "...")))
         (newline +:+ "Processing complete.")) in
    if path_exists W output_dir then run s
    else match makedirs W output_dir with
         | inl e => (inl e, logged s (Ev_makedirs output_dir false))
         | inr _ => run (logged s (Ev_makedirs output_dir true))
         end.
Proof.
  rewrite recurse_and_process_unfold. unfold ensure_dir, dispatched.
  unfold bind at 1.
  destruct (path_exists W output_dir); cbn [negb].
  - unfold ret at 1, bind at 1, print at 1, bind at 1.
    rewrite walk_loop_total. reflexivity.
  - unfold call_logged.
    destruct (makedirs W output_dir) as [e|[]]; [reflexivity|].
    unfold bind at 1, print at 1, bind at 1.
    rewrite walk_loop_total. reflexivity.
Qed.

(** What holds before the files and is kept by every file holds after
    all of them. *)
Lemma dispatched_invariant W MODE output_dir (P : state -> Prop) :
  (forall path s, P s -> P (process_file W MODE path output_dir s).2) ->
  forall paths s, P s -> P (dispatched W MODE paths output_dir s).
Proof.
  intros Hstep paths. unfold dispatched.
  induction paths as [|path paths IH]; intros s Hs; [done|].
  cbn [fold_left]. by apply IH, Hstep.
Qed.

Lemma video_gate_photo_mode path : video_gate "photo" path = false.
Proof. unfold video_gate. by rewrite andb_false_r. Qed.

Lemma photo_gate_video_mode path : photo_gate "video" path = false.
Proof. unfold photo_gate. by rewrite andb_false_r. Qed.

Lemma gates_closed MODE path :
  MODE <> "photo" -> MODE <> "video" -> MODE <> "both" ->
  photo_gate MODE path = false /\ video_gate MODE path = false.
Proof.
  intros H1 H2 H3. unfold photo_gate, video_gate.
  rewrite !(bool_decide_eq_false_2 (MODE ∈ _)), !andb_false_r; [done|..];
    rewrite !elem_of_cons, elem_of_nil; tauto.
Qed.

(** X3. The mode decides what a run may do.  In mode [photo] no command
    is ever run, in mode [video] nothing is ever copied, and under any
    mode other than the three names - they are compared as they are
    written - the files are all passed over and the state is left as it
    was. *)
Theorem mode_selects_kind W MODE paths output_dir s :
  let s' := dispatched W MODE paths output_dir s in
  (MODE = "photo" ->
   forall cmd ok, Ev_run cmd ok ∈ trace s' -> Ev_run cmd ok ∈ trace s)
  /\ (MODE = "video" ->
      forall src dst ok,
        Ev_copy2 src dst ok ∈ trace s' -> Ev_copy2 src dst ok ∈ trace s)
  /\ (MODE <> "photo" -> MODE <> "video" -> MODE <> "both" -> s' = s).
Proof.
  cbn zeta. repeat split.
  - intros -> cmd ok.
    apply (dispatched_invariant W "photo" output_dir
             (fun st => Ev_run cmd ok ∈ trace st -> Ev_run cmd ok ∈ trace s));
      [|done].
    intros path st IH.
    destruct (process_file_took W "photo" path output_dir st)
      as [(_ & -> & _)
         |(dt & [(_ & -> & _)
                |[(ok' & _ & _ & -> & _) | (codec & ok' & _ & Hv & _)]])].
    + done.
    + by rewrite List.app_nil_r.
    + intros [?|[=]%list_elem_of_singleton]%elem_of_app. auto.
    + by rewrite video_gate_photo_mode in Hv.
  - intros -> src dst ok.
    apply (dispatched_invariant W "video" output_dir
             (fun st => Ev_copy2 src dst ok ∈ trace st
                        -> Ev_copy2 src dst ok ∈ trace s));
      [|done].
    intros path st IH.
    destruct (process_file_took W "video" path output_dir st)
      as [(_ & -> & _)
         |(dt & [(_ & -> & _)
                |[(ok' & Hp & _) | (codec & ok' & _ & _ & _ & -> & _)]])].
    + done.
    + by rewrite List.app_nil_r.
    + by rewrite photo_gate_video_mode in Hp.
    + intros [?|[=]%list_elem_of_singleton]%elem_of_app. auto.
  - intros H1 H2 H3.
    apply (dispatched_invariant W MODE output_dir (fun st => st = s)); [|done].
    intros path st ->. rewrite process_file_cases.
    by destruct (gates_closed MODE path H1 H2 H3) as [-> ->].
Qed.

Lemma mode_selects_kind_witness :
  dispatched Sample.card "Photo" ["/cam/a.jpg"; "/cam/v1.MOV"] "/out"
    initial_state
  = initial_state
  /\ (forall cmd ok,
        Ev_run cmd ok
        ∉ trace (dispatched Sample.card "photo"
                   (walked_paths (walk Sample.card "/cam")) "/out"
                   initial_state)).
Proof.
  split.
  - by apply (mode_selects_kind Sample.card "Photo").
  - intros cmd ok Hin.
    destruct (mode_selects_kind Sample.card "photo"
                (walked_paths (walk Sample.card "/cam")) "/out" initial_state)
      as (Hphoto & _).
    specialize (Hphoto eq_refl cmd ok Hin). cbn in Hphoto.
    by apply elem_of_nil in Hphoto.
Defined.

(** ** No output is written twice *)

Lemma format_0wd_head w n :
  exists d r, format_0wd w n = String d r /\ is_digit d = true.
Proof.
  pose proof (format_0wd_digits w n) as Hd.
  pose proof (length_format_0wd w n) as Hl.
  pose proof (length_format_d_pos n).
  destruct (format_0wd w n) as [|d r]; cbn in *; [lia|].
  apply andb_true_iff in Hd as [Hd _]. eauto.
Qed.

Lemma filename_relative dt c ext :
  String.prefix "/" (filename dt c ext) = false.
Proof.
  unfold filename, strftime_Y_m_d.
  destruct (format_0wd_head 4 (year dt)) as (d & r & -> & Hd).
  rewrite !app_assoc. push_app. cbn [String.prefix].
  destruct (ascii_dec "/" d) as [<-|]; [discriminate|done].
Qed.

Lemma path_join_inj a b1 b2 :
  String.prefix "/" b1 = false -> String.prefix "/" b2 = false ->
  Py.path_join a b1 = Py.path_join a b2 -> b1 = b2.
Proof.
  unfold Py.path_join. intros -> ->.
  destruct (_ || _); intros H.
  - by apply (inj (String.app a)) in H.
  - apply (inj (String.app a)) in H. by apply (inj (String.app "/")) in H.
Qed.

Lemma counter_of_grows m dt dt0 :
  counter_of m dt
  <= counter_of (<[strftime_Y_m_d dt0 := S (counter_of m dt0)]> m) dt.
Proof.
  rewrite counter_of_insert. case_decide as Hd; [|done].
  rewrite (counter_of_date m dt0 dt Hd). lia.
Qed.

Lemma photo_gate_ext_ok MODE path :
  photo_gate MODE path = true -> ext_ok (Py.lower (Py.splitext_ext path)).
Proof.
  unfold photo_gate. intros [Hext _]%andb_true_iff.
  apply bool_decide_eq_true in Hext. revert Hext.
  generalize (Py.lower (Py.splitext_ext path)). intros ext.
  unfold PHOTO_EXTENSIONS. rewrite !elem_of_union, !elem_of_singleton.
  by intros [[-> | ->] | ->].
Qed.

Lemma produced_snoc tr ev :
  produced (tr ++ [ev])
  = produced tr ++ match produced_by ev with Some p => [p] | None => [] end.
Proof. unfold produced. rewrite omap_app. cbn. by destruct (produced_by ev). Qed.

(** A step that takes the counter of [dt] and produces at most the file
    numbered with it keeps the outputs numbered and distinct. *)
Lemma outputs_numbered_took output_dir s s' dt evs ext :
  took s s' dt evs ->
  ext_ok ext ->
  (produced evs = []
   \/ produced evs
      = [Py.path_join output_dir
           (filename dt (S (counter_of (date_counters s) dt)) ext)]) ->
  outputs_numbered output_dir s -> outputs_numbered output_dir s'.
Proof.
  intros (Hc & Ht & _) Hext Hevs [Hnodup Hnum].
  assert (forall p, p ∈ produced (trace s) ->
            exists dt1 c ext1,
              ext_ok ext1
              /\ p = Py.path_join output_dir (filename dt1 c ext1)
              /\ c <= counter_of (date_counters s') dt1) as Hold.
  { intros p (dt1 & c & ext1 & He & -> & Hle)%Hnum.
    exists dt1, c, ext1. repeat split; [done|].
    rewrite Hc. etrans; [exact Hle | apply counter_of_grows]. }
  unfold outputs_numbered, produced in *. rewrite Ht, omap_app.
  destruct Hevs as [-> | ->].
  { rewrite List.app_nil_r. by split. }
  split.
  - apply NoDup_app. split; [done|]. split; [|apply NoDup_singleton].
    intros p Hp ->%list_elem_of_singleton.
    destruct (Hnum _ Hp) as (dt1 & c & ext1 & He & Heq & Hle).
    apply path_join_inj in Heq; [|apply filename_relative..].
    apply filename_inj in Heq as (Hd & <- & _); [|done..].
    rewrite (counter_of_date _ _ _ Hd) in Hle. lia.
  - intros p [Hp | ->%list_elem_of_singleton]%elem_of_app; [by apply Hold|].
    exists dt, (S (counter_of (date_counters s) dt)), ext.
    repeat split; [done|].
    rewrite Hc, counter_of_insert, decide_True; done.
Qed.

Lemma outputs_numbered_prints output_dir s s' :
  only_prints s s' -> outputs_numbered output_dir s ->
  outputs_numbered output_dir s'.
Proof.
  intros (Hc & Ht & _). unfold outputs_numbered. by rewrite Hc, Ht.
Qed.

Lemma last_ffmpeg_cmd src audio_codec dst_path :
  last (ffmpeg_cmd src audio_codec dst_path) = Some dst_path.
Proof. unfold ffmpeg_cmd. apply last_snoc. Qed.

Lemma process_file_outputs_numbered W MODE path output_dir s :
  outputs_numbered output_dir s ->
  outputs_numbered output_dir (process_file W MODE path output_dir s).2.
Proof.
  destruct (process_file_took W MODE path output_dir s)
    as [Hp
       |(dt & [Ht
              |[(ok & Hgate & Ht) | (codec & ok & _ & _ & Ht)]])].
  - by apply outputs_numbered_prints.
  - apply (outputs_numbered_took _ _ _ _ _ ".mp4" Ht); [done | by left].
  - apply (outputs_numbered_took _ _ _ _ _
             (Py.lower (Py.splitext_ext path)) Ht);
      [by eapply photo_gate_ext_ok|].
    destruct ok; [by right | by left].
  - apply (outputs_numbered_took _ _ _ _ _ ".mp4" Ht); [done|].
    destruct ok; [right | by left].
    unfold produced. cbn. by rewrite last_ffmpeg_cmd.
Qed.

(** X4. Within a run no file is produced twice: the destinations of the
    copies and conversions that succeeded are pairwise distinct, so no
    output of the run overwrites another one of the same run. *)
Theorem run_outputs_distinct W MODE input_dir output_dir :
  NoDup
    (produced
       (trace (recurse_and_process W MODE input_dir output_dir
                 initial_state).2)).
Proof.
  rewrite recurse_and_process_eval. cbn zeta.
  assert (forall s0,
    produced (trace s0) = [] ->
    NoDup (produced (trace
      (printed
         (dispatched W MODE (walked_paths (walk W input_dir)) output_dir
            (printed s0 ("Starting processing from " +:+ input_dir +:+ "...")))
         (newline +:+ "Processing complete."))))) as Hrun.
  { intros s0 H0. cbn [printed trace].
    apply (dispatched_invariant W MODE output_dir
             (outputs_numbered output_dir)).
    - intros path s. apply process_file_outputs_numbered.
    - split; cbn [printed trace]; rewrite H0; [apply NoDup_nil_2|].
      by intros p ?%elem_of_nil. }
  destruct (path_exists W output_dir); [by apply Hrun|].
  destruct (makedirs W output_dir) as [e|[]]; cbn [snd].
  - cbn. apply NoDup_nil_2.
  - by apply Hrun.
Qed.

(** ** Errors of the prober other than a failure status *)

(** X5. When probing the creation time of a video raises anything but a
    failure status - the prober cannot be started, its output cannot be
    decoded, the parser raises something else than [ValueError] - the
    resolver returns the modification time and prints exactly one
    warning, which names the file and the exception.  An output that
    cannot be decoded is reported this way, not as a creation time that
    does not parse. *)
Theorem video_probe_error_warns W path s ts fallback_dt :
  getmtime W path = inr ts ->
  fromtimestamp W ts = inr fallback_dt ->
  let warned e :=
    (inr fallback_dt,
     printed s ("Warning: Error during ffprobe for video " +:+ path +:+ ": "
                +:+ exn_str e +:+ ". Falling back to mtime.")) in
  (forall e,
     check_output W (creation_time_probe_cmd path) = inl e ->
     isinstance e CalledProcessError = false ->
     get_video_datetime W path s = warned e)
  /\ (forall out e,
        check_output W (creation_time_probe_cmd path) = inr out ->
        bytes_decode W out = inl e ->
        isinstance e CalledProcessError = false ->
        get_video_datetime W path s = warned e)
  /\ (forall out text e,
        check_output W (creation_time_probe_cmd path) = inr out ->
        bytes_decode W out = inr text ->
        Py.strip text <> "" ->
        fromisoformat W (Py.replace "Z" "+00:00" (Py.strip text)) = inl e ->
        isinstance e ValueError = false ->
        isinstance e CalledProcessError = false ->
        get_video_datetime W path s = warned e).
Proof.
  intros Hts Hfb warned. subst warned. repeat split.
  - intros e He Hcls. rewrite get_video_datetime_cases, Hts, Hfb.
    unfold creation_time_text. rewrite He. cbn zeta. by rewrite Hcls.
  - intros out e Hout He Hcls. rewrite get_video_datetime_cases, Hts, Hfb.
    unfold creation_time_text. rewrite Hout, He. cbn zeta. by rewrite Hcls.
  - intros out text e Hout Hdec Hne%String.eqb_neq Hiso Hv Hcls.
    rewrite get_video_datetime_cases, Hts, Hfb.
    unfold creation_time_text. rewrite Hout, Hdec. cbn zeta.
    by rewrite Hne, Hiso, Hv, Hcls.
Qed.

Lemma video_probe_error_warns_witness :
  get_video_datetime Latin.card "/cam/clip.avi" initial_state
  = (inr (mkDatetime 2022 1 1 0 0 0 0 None),
     printed initial_state
       ("Warning: Error during ffprobe for video /cam/clip.avi: "
        +:+ "'utf-8' codec can't decode byte: invalid start byte"
        +:+ ". Falling back to mtime.")).
Proof.
  destruct (video_probe_error_warns Latin.card "/cam/clip.avi" initial_state
              Sample.card_mtime (mkDatetime 2022 1 1 0 0 0 0 None)
              eq_refl eq_refl) as (_ & Hdecode & _).
  refine (Hdecode Latin.latin_bytes
            (Exn UnicodeDecodeError
               "'utf-8' codec can't decode byte: invalid start byte") _ _ _);
    vm_compute; reflexivity.
Defined.

Lemma probed_audio_codec_raises W src e :
  probed_audio_codec W src = inl e ->
  isinstance e CalledProcessError = false
  /\ (check_output W (audio_codec_probe_cmd src) = inl e
      \/ exists out,
           check_output W (audio_codec_probe_cmd src) = inr out
           /\ bytes_decode W out = inl e).
Proof.
  unfold probed_audio_codec.
  destruct (check_output W _) as [e1|out] eqn:Hout.
  - destruct (isinstance e1 CalledProcessError) eqn:Hcls; [done|].
    intros [= <-]. split; [done | by left].
  - destruct (bytes_decode W out) as [e1|text] eqn:Hdec; [|done].
    destruct (isinstance e1 CalledProcessError) eqn:Hcls; [done|].
    intros [= <-]. split; [done | right; by exists out].
Qed.

(** X6. Only a failure status of the audio prober is turned into the
    codec [unknown].  Any other exception of that probe - its output
    cannot be decoded, say - leaves the converter: by then the counter
    of the date is taken, the encoder is never run for the file, and the
    dispatcher prints the failure in its plain wording, without
    [(FFmpeg failed)]. *)
Theorem audio_probe_error_aborts_conversion W MODE path output_dir s dt s1 e :
  photo_gate MODE path = false ->
  video_gate MODE path = true ->
  get_video_datetime W path
    (printed s (newline +:+ "Processing video: " +:+ path)) = (inr dt, s1) ->
  probed_audio_codec W path = inl e ->
  process_file W MODE path output_dir s
  = (inr tt,
     printed (named s1 dt)
       ("FATAL Error converting video " +:+ path +:+ ": " +:+ exn_str e))
  /\ trace (named s1 dt) = trace s
  /\ date_counters (named s1 dt) !! strftime_Y_m_d dt
     = Some (counter_of (date_counters s) dt + 1)
  /\ isinstance e CalledProcessError = false.
Proof.
  intros Hphoto Hvideo Hres Hcodec.
  destruct (probed_audio_codec_raises W path e Hcodec) as [Hcls _].
  pose proof (get_video_datetime_prints W path
                (printed s (newline +:+ "Processing video: " +:+ path)))
    as (Hc & Ht & _).
  rewrite Hres in Hc, Ht. cbn [snd printed date_counters trace] in Hc, Ht.
  repeat split; [|done| |done].
  - rewrite process_file_cases, Hphoto, Hvideo, convert_video_cases, Hres.
    cbn zeta. rewrite Hcodec. unfold convert_failure_line. by rewrite Hcls.
  - cbn. rewrite Hc, lookup_insert_eq. f_equal. lia.
Qed.

Lemma audio_probe_error_aborts_conversion_witness :
  process_file Latin.card "video" "/cam/song.avi" "/out" initial_state
  = (inr tt,
     printed
       (named (printed initial_state
                 (newline +:+ "Processing video: /cam/song.avi"))
          (mkDatetime 2022 1 1 0 0 0 0 None))
       ("FATAL Error converting video /cam/song.avi: "
        +:+ "'utf-8' codec can't decode byte: invalid start byte")).
Proof.
  refine (proj1 (audio_probe_error_aborts_conversion Latin.card "video"
                   "/cam/song.avi" "/out" initial_state
                   (mkDatetime 2022 1 1 0 0 0 0 None)
                   (printed initial_state
                      (newline +:+ "Processing video: /cam/song.avi"))
                   (Exn UnicodeDecodeError
                      "'utf-8' codec can't decode byte: invalid start byte")
                   _ _ _ _));
    vm_compute; reflexivity.
Defined.

(** ** What counts as the extension of a file *)

Lemma rfind_from_absent c s i last :
  all (other_than c) s = true -> Py.rfind_from c s i last = last.
Proof.
  revert i last. induction s as [|d s IH]; intros i last; cbn; [done|].
  unfold other_than at 1. intros [Hd Hs]%andb_true_iff.
  apply negb_true_iff in Hd. rewrite Hd. by apply IH.
Qed.

Lemma rfind_from_app c a b i last :
  Py.rfind_from c (a +:+ b) i last
  = Py.rfind_from c b (i + Z.of_nat (String.length a))
      (Py.rfind_from c a i last).
Proof.
  revert i last. induction a as [|d a IH]; intros i last; push_app.
  - cbn. by rewrite Z.add_0_r.
  - cbn [Py.rfind_from String.length]. rewrite IH. f_equal. lia.
Qed.

Lemma rfind_from_range c s i last :
  (last < i)%Z ->
  (last <= Py.rfind_from c s i last < i + Z.of_nat (String.length s))%Z.
Proof.
  revert i last. induction s as [|d s IH]; intros i last Hlt; cbn; [lia|].
  destruct (Ascii.eqb d c).
  - specialize (IH (i + 1)%Z i). lia.
  - specialize (IH (i + 1)%Z last). lia.
Qed.

Lemma rfind_from_dots k i last :
  Py.rfind_from "." (replicate (S k) ".") i last = (i + Z.of_nat k)%Z.
Proof.
  revert i last. induction k as [|k IH]; intros i last.
  - cbn. lia.
  - change (replicate (S (S k)) ".") with (String "." (replicate (S k) ".")).
    cbn [Py.rfind_from]. rewrite IH. lia.
Qed.

Lemma drop_app a b : Py.drop (String.length a) (a +:+ b) = b.
Proof. induction a as [|d a IH]; push_app; [by destruct b | apply IH]. Qed.

Lemma all_plain_no_dot s :
  all plain_char s = true -> all (other_than ".") s = true.
Proof.
  induction s as [|d s IH]; cbn; [done|].
  unfold plain_char at 1, other_than at 1.
  intros [[-> _]%andb_true_iff Hs]%andb_true_iff. auto.
Qed.

Lemma all_plain_no_slash s :
  all plain_char s = true -> all (other_than "/") s = true.
Proof.
  induction s as [|d s IH]; cbn; [done|].
  unfold plain_char at 1, other_than at 1.
  intros [[_ ->]%andb_true_iff Hs]%andb_true_iff. auto.
Qed.

Lemma dots_no_slash k : all (other_than "/") (replicate k ".") = true.
Proof. by apply all_replicate. Qed.

(** The index of the slash that ends the directory part. *)
Lemma rfind_slash dir name :
  all (other_than "/") name = true ->
  Py.rfind "/" (dir +:+ "/" +:+ name) = Z.of_nat (String.length dir).
Proof.
  intros Hname. unfold Py.rfind. rewrite rfind_from_app. push_app.
  cbn [Py.rfind_from]. rewrite Ascii.eqb_refl.
  by rewrite rfind_from_absent.
Qed.

(** The index of the last dot, when the name has none: it lies in the
    directory part. *)
Lemma rfind_dot_in_dir dir name :
  all (other_than ".") name = true ->
  (Py.rfind "." (dir +:+ "/" +:+ name) < Z.of_nat (String.length dir))%Z.
Proof.
  intros Hname. unfold Py.rfind. rewrite rfind_from_app. push_app.
  cbn [Py.rfind_from]. change (Ascii.eqb "/" ".") with false.
  rewrite rfind_from_absent by done.
  pose proof (rfind_from_range "." dir 0 (-1)). lia.
Qed.

Lemma has_name_before_dot_dots k rest :
  Py.has_name_before_dot (replicate (S k) "." +:+ rest) k = false.
Proof.
  induction k as [|k IH]; [done|].
  cbn [replicate]. push_app. cbn [Py.has_name_before_dot].
  rewrite Ascii.eqb_refl. cbn [negb]. apply IH.
Qed.

Lemma has_name_before_dot_stem stem rest :
  all (Ascii.eqb ".") stem = false ->
  Py.has_name_before_dot (stem +:+ rest) (String.length stem) = true.
Proof.
  induction stem as [|d stem IH]; [done|]. push_app.
  cbn [all String.length Py.has_name_before_dot].
  rewrite (Ascii.eqb_sym d "."). destruct (Ascii.eqb "." d); cbn; auto.
Qed.

(** A name made of dots and then of plain characters has no extension. *)
Lemma splitext_ext_none dir k rest :
  all plain_char rest = true ->
  Py.splitext_ext (dir +:+ "/" +:+ replicate k "." +:+ rest) = "".
Proof.
  intros Hrest. unfold Py.splitext_ext.
  rewrite rfind_slash
    by (rewrite all_app, dots_no_slash; by apply all_plain_no_slash).
  destruct k as [|k].
  - change (replicate 0 "." +:+ rest) with rest.
    pose proof (rfind_dot_in_dir dir rest (all_plain_no_dot _ Hrest)) as Hd.
    by rewrite (proj2 (Z.ltb_ge _ _)) by lia.
  - assert (Py.rfind "." (dir +:+ "/" +:+ replicate (S k) "." +:+ rest)
            = (Z.of_nat (String.length dir) + 1 + Z.of_nat k)%Z) as ->.
    { unfold Py.rfind. rewrite rfind_from_app. push_app.
      cbn [Py.rfind_from]. change (Ascii.eqb "/" ".") with false.
      rewrite rfind_from_app, rfind_from_dots.
      rewrite rfind_from_absent by by apply all_plain_no_dot. lia. }
    rewrite (proj2 (Z.ltb_lt _ _)) by lia.
    replace (Z.to_nat (Z.of_nat (String.length dir) + 1))
      with (String.length (dir +:+ "/")) by (rewrite length_app; cbn; lia).
    rewrite <-(app_assoc dir "/"), drop_app.
    replace (Z.to_nat _ - String.length (dir +:+ "/")) with k
      by (rewrite length_app; cbn; lia).
    by rewrite has_name_before_dot_dots.
Qed.

(** Behind a stem that is not made of dots alone, the extension is the
    last dot and what follows it. *)
Lemma splitext_ext_some dir stem e :
  all (other_than "/") stem = true ->
  all (Ascii.eqb ".") stem = false ->
  all plain_char e = true ->
  Py.splitext_ext (dir +:+ "/" +:+ stem +:+ "." +:+ e) = "." +:+ e.
Proof.
  intros Hstem Hname He. unfold Py.splitext_ext.
  rewrite rfind_slash
    by (rewrite all_app, Hstem; push_app; cbn [all andb];
        change (other_than "/" ".") with true; by apply all_plain_no_slash).
  assert (Py.rfind "." (dir +:+ "/" +:+ stem +:+ "." +:+ e)
          = (Z.of_nat (String.length dir) + 1
             + Z.of_nat (String.length stem))%Z) as ->.
  { unfold Py.rfind. rewrite rfind_from_app. push_app.
    cbn [Py.rfind_from]. change (Ascii.eqb "/" ".") with false.
    rewrite rfind_from_app. push_app. cbn [Py.rfind_from].
    rewrite Ascii.eqb_refl, rfind_from_absent by by apply all_plain_no_dot.
    lia. }
  rewrite (proj2 (Z.ltb_lt _ _)) by lia.
  replace (Z.to_nat (Z.of_nat (String.length dir) + 1))
    with (String.length (dir +:+ "/")) by (rewrite length_app; cbn; lia).
  rewrite <-(app_assoc dir "/"), drop_app.
  replace (Z.to_nat _ - String.length (dir +:+ "/")) with (String.length stem)
    by (rewrite length_app; cbn; lia).
  rewrite has_name_before_dot_stem by done.
  replace (Z.to_nat _) with (String.length ((dir +:+ "/") +:+ stem))
    by (rewrite !length_app; cbn; lia).
  rewrite <-(app_assoc (dir +:+ "/") stem). apply drop_app.
Qed.

(** X7. A file whose name has no extension is passed over under every
    mode: nothing is printed, counted or written.  That is so for a name
    without a dot, and also for a name that only starts with dots - a
    file called [.jpg] is no photo. *)
Theorem no_extension_is_skipped W MODE dir k rest output_dir s :
  all plain_char rest = true ->
  process_file W MODE (dir +:+ "/" +:+ replicate k "." +:+ rest) output_dir s
  = (inr tt, s).
Proof.
  intros Hrest. rewrite process_file_cases.
  unfold photo_gate, video_gate. by rewrite splitext_ext_none.
Qed.

Lemma no_extension_is_skipped_witness :
  process_file Latin.card "both" "/cam/.jpg" "/out" initial_state
  = (inr tt, initial_state)
  /\ process_file Latin.card "both" "/cam/README" "/out" initial_state
     = (inr tt, initial_state).
Proof.
  split.
  - exact (no_extension_is_skipped Latin.card "both" "/cam" 1 "jpg" "/out"
             initial_state eq_refl).
  - exact (no_extension_is_skipped Latin.card "both" "/cam" 0 "README" "/out"
             initial_state eq_refl).
Defined.

Lemma filename_ends_with dt c ext : ends_with ext (filename dt c ext) = true.
Proof. unfold filename. rewrite <-!app_assoc. apply ends_with_app. Qed.

(** X8. The kind of a file is read off what follows the last dot of its
    name, whatever the case of the letters: the gates compare the
    extension in lower case, and the copy of a photo is written under a
    name that ends in the extension in lower case. *)
Theorem extension_in_lower_case W MODE dir stem e output_dir s :
  all (other_than "/") stem = true ->
  all (Ascii.eqb ".") stem = false ->
  all plain_char e = true ->
  let path := dir +:+ "/" +:+ stem +:+ "." +:+ e in
  let ext := "." +:+ Py.lower e in
  photo_gate MODE path
  = bool_decide (ext ∈ PHOTO_EXTENSIONS)
    && bool_decide (MODE ∈ ["photo"; "both"])
  /\ video_gate MODE path
     = bool_decide (ext ∈ VIDEO_EXTENSIONS)
       && bool_decide (MODE ∈ ["video"; "both"])
  /\ (forall src dst ok,
        Ev_copy2 src dst ok ∈ trace (process_file W MODE path output_dir s).2 ->
        Ev_copy2 src dst ok ∈ trace s
        \/ (src = path /\ ends_with ext dst = true)).
Proof.
  intros Hstem Hname He path ext.
  assert (Py.lower (Py.splitext_ext path) = ext) as Hext
    by (unfold path; by rewrite splitext_ext_some).
  split; [|split].
  - unfold photo_gate. by rewrite Hext.
  - unfold video_gate. by rewrite Hext.
  - intros src dst ok.
    destruct (process_file_took W MODE path output_dir s)
      as [(_ & -> & _)
         |(dt & [(_ & -> & _)
                |[(ok' & _ & _ & -> & _) | (codec & ok' & _ & _ & _ & -> & _)]])].
    + auto.
    + rewrite List.app_nil_r. auto.
    + intros [?|[= -> -> ->]%list_elem_of_singleton]%elem_of_app; [auto|].
      right. split; [done|]. rewrite Hext.
      apply path_join_ends_with, filename_ends_with.
    + intros [?|[=]%list_elem_of_singleton]%elem_of_app. auto.
Qed.

Lemma extension_in_lower_case_witness :
  photo_gate "photo" "/cam/IMG_0001.JPG" = true
  /\ (forall src dst ok,
        Ev_copy2 src dst ok
        ∈ trace (process_file Sample.card "photo" "/cam/IMG_0001.JPG" "/out"
                   initial_state).2 ->
        src = "/cam/IMG_0001.JPG" /\ ends_with ".jpg" dst = true).
Proof.
  destruct (extension_in_lower_case Sample.card "photo" "/cam" "IMG_0001"
              "JPG" "/out" initial_state eq_refl eq_refl eq_refl)
    as (Hphoto & _ & Hcopy).
  split; [exact Hphoto|].
  intros src dst ok Hin.
  destruct (Hcopy src dst ok Hin) as [Hold|Hnew]; [|exact Hnew].
  cbn in Hold. by apply elem_of_nil in Hold.
Defined.

(** ** Where the outputs go, and how many *)

Lemma digits_no_slash s :
  all is_digit s = true -> all (other_than "/") s = true.
Proof.
  induction s as [|d s IH]; cbn; [done|].
  intros [Hd Hs]%andb_true_iff. rewrite IH by done.
  rewrite andb_true_r. unfold other_than.
  destruct (Ascii.eqb_spec d "/") as [->|]; [discriminate|done].
Qed.

Lemma format_0wd_no_slash w n : all (other_than "/") (format_0wd w n) = true.
Proof. apply digits_no_slash, format_0wd_digits. Qed.

Lemma filename_no_slash dt c ext :
  all (other_than "/") ext = true ->
  all (other_than "/") (filename dt c ext) = true.
Proof.
  intros Hext. unfold filename, strftime_Y_m_d.
  rewrite !all_app, !format_0wd_no_slash, Hext. reflexivity.
Qed.

Lemma script_ext_no_slash ext :
  ext ∈ PHOTO_EXTENSIONS \/ ext = ".mp4" -> all (other_than "/") ext = true.
Proof.
  unfold PHOTO_EXTENSIONS. rewrite !elem_of_union, !elem_of_singleton.
  by intros [[[-> | ->] | ->] | ->].
Qed.

Lemma outputs_flat_step output_dir s s' dt c ext evs :
  trace s' = trace s ++ evs ->
  (produced evs = []
   \/ produced evs = [Py.path_join output_dir (filename dt c ext)]) ->
  ext ∈ PHOTO_EXTENSIONS \/ ext = ".mp4" ->
  outputs_flat output_dir s -> outputs_flat output_dir s'.
Proof.
  intros Ht Hevs Hext Hflat p. unfold produced in *.
  rewrite Ht, omap_app.
  destruct Hevs as [-> | ->].
  - rewrite List.app_nil_r. apply Hflat.
  - intros [Hp | ->%list_elem_of_singleton]%elem_of_app; [by apply Hflat|].
    exists dt, c, ext. repeat split; [done|].
    by apply filename_no_slash, script_ext_no_slash.
Qed.

Lemma process_file_outputs_flat W MODE path output_dir s :
  outputs_flat output_dir s ->
  outputs_flat output_dir (process_file W MODE path output_dir s).2.
Proof.
  destruct (process_file_took W MODE path output_dir s)
    as [(_ & Ht & _)
       |(dt & [(_ & Ht & _)
              |[(ok & Hgate & _ & Ht & _) | (codec & ok & _ & _ & _ & Ht & _)]])].
  - unfold outputs_flat. by rewrite Ht.
  - unfold outputs_flat. by rewrite Ht, List.app_nil_r.
  - apply (outputs_flat_step _ _ _ dt
             (S (counter_of (date_counters s) dt))
             (Py.lower (Py.splitext_ext path)) _ Ht).
    + destruct ok; [by right | by left].
    + left. unfold photo_gate in Hgate.
      apply andb_true_iff in Hgate as [Hext _].
      by apply bool_decide_eq_true in Hext.
  - apply (outputs_flat_step _ _ _ dt
             (S (counter_of (date_counters s) dt)) ".mp4" _ Ht); [|by right].
    destruct ok; [right | by left].
    unfold produced. cbn. by rewrite last_ffmpeg_cmd.
Qed.

(** X13. The outputs of a run are flat: every file produced lies
    directly in the output directory, whatever directory of the tree
    its source was found in, under a name without a slash made of the
    date, the counter and a photo extension or [.mp4]. *)
Theorem run_outputs_flat W MODE input_dir output_dir p :
  p ∈ produced
        (trace (recurse_and_process W MODE input_dir output_dir
                  initial_state).2) ->
  exists dt c ext,
    (ext ∈ PHOTO_EXTENSIONS \/ ext = ".mp4")
    /\ p = Py.path_join output_dir
             (strftime_Y_m_d dt +:+ "_" +:+ format_0wd 3 c +:+ ext)
    /\ all (other_than "/")
         (strftime_Y_m_d dt +:+ "_" +:+ format_0wd 3 c +:+ ext) = true.
Proof.
  rewrite recurse_and_process_eval. cbn zeta.
  assert (forall s0,
    produced (trace s0) = [] ->
    outputs_flat output_dir
      (printed
         (dispatched W MODE (walked_paths (walk W input_dir)) output_dir
            (printed s0 ("Starting processing from " +:+ input_dir +:+ "...")))
         (newline +:+ "Processing complete."))) as Hrun.
  { intros s0 H0. unfold outputs_flat. cbn [printed trace].
    apply (dispatched_invariant W MODE output_dir (outputs_flat output_dir)).
    - intros path s. apply process_file_outputs_flat.
    - unfold outputs_flat. cbn [printed trace]. rewrite H0.
      by intros q ?%elem_of_nil. }
  destruct (path_exists W output_dir); [by apply Hrun|].
  destruct (makedirs W output_dir) as [e|[]]; cbn [snd].
  - cbn. by intros ?%elem_of_nil.
  - by apply Hrun.
Qed.

Lemma run_outputs_flat_witness :
  exists dt c ext,
    (ext ∈ PHOTO_EXTENSIONS \/ ext = ".mp4")
    /\ "/out/2021_06_15_003.jpg"
       = Py.path_join "/out"
           (strftime_Y_m_d dt +:+ "_" +:+ format_0wd 3 c +:+ ext)
    /\ all (other_than "/")
         (strftime_Y_m_d dt +:+ "_" +:+ format_0wd 3 c +:+ ext) = true.
Proof.
  apply (run_outputs_flat Sample.card "photo" "/cam" "/out").
  vm_compute. do 2 apply list_elem_of_further. apply list_elem_of_here.
Defined.

(** A step of [process_file] adds at most one event and moves no
    counter down. *)
Lemma process_file_grows W MODE path output_dir s :
  let s' := (process_file W MODE path output_dir s).2 in
  (exists evs, trace s' = trace s ++ evs /\ length evs <= 1)
  /\ (forall dt,
        counter_of (date_counters s) dt <= counter_of (date_counters s') dt
        <= counter_of (date_counters s) dt + 1).
Proof.
  cbn zeta.
  assert (forall dt0 dt,
    counter_of (date_counters s) dt
    <= counter_of (<[strftime_Y_m_d dt0
                     := S (counter_of (date_counters s) dt0)]>
                     (date_counters s)) dt
    <= counter_of (date_counters s) dt + 1) as Hins.
  { intros dt0 dt. rewrite counter_of_insert. case_decide as Hd; [|lia].
    rewrite (counter_of_date _ dt0 dt Hd). lia. }
  destruct (process_file_took W MODE path output_dir s)
    as [(Hc & Ht & _)
       |(dt0 & [(Hc & Ht & _)
               |[(ok & _ & Hc & Ht & _) | (codec & ok & _ & _ & Hc & Ht & _)]])];
    rewrite Hc, Ht; split; try apply Hins; try (intros; lia).
  - exists []. split; [by rewrite List.app_nil_r | cbn; lia].
  - exists []. split; [done | cbn; lia].
  - eexists. split; [done|]. cbn. lia.
  - eexists. split; [done|]. cbn. lia.
Qed.

(** X14. A run attempts at most one write per file dispatched and takes
    at most one counter per file: after any number of files the events
    of before are still there, in place, followed by at most as many new
    ones as there were files, and every counter lies between its old
    value and its old value plus the number of files. *)
Theorem dispatch_one_write_per_file W MODE paths output_dir s :
  let s' := dispatched W MODE paths output_dir s in
  (exists evs, trace s' = trace s ++ evs /\ length evs <= length paths)
  /\ (forall dt,
        counter_of (date_counters s) dt <= counter_of (date_counters s') dt
        <= counter_of (date_counters s) dt + length paths).
Proof.
  cbn zeta. unfold dispatched. revert s.
  induction paths as [|path paths IH]; intros s; cbn [fold_left length].
  - split; [|intros; lia].
    exists []. split; [by rewrite List.app_nil_r | cbn; lia].
  - destruct (process_file_grows W MODE path output_dir s)
      as ((evs1 & Ht1 & Hl1) & Hc1). cbn zeta in Ht1, Hc1.
    destruct (IH (process_file W MODE path output_dir s).2)
      as ((evs2 & Ht2 & Hl2) & Hc2).
    split.
    + exists (evs1 ++ evs2). rewrite Ht2, Ht1, List.app_assoc.
      split; [done|]. rewrite List.length_app. lia.
    + intros dt. specialize (Hc1 dt). specialize (Hc2 dt). lia.
Qed.

(** * The manual tagging tool *)

Module TaggerFacts.
Import VideoDateTagger.

Lemma load_next_video_cases t :
  load_next_video t
  = if (length (video_files t) <=? index t)%nat then
      (inr tt, act (act t (Information "Done" "All videos processed.")) Close)
    else
      match video_files t !! index t with
      | Some file =>
          (inr tt,
           act (act (mkTagger (directory t) (video_files t) (index t)
                       (counter t) (Some file) (date_input t) (actions t))
                  (Set_source file)) Play)
      | None => (inr tt, t)
      end.
Proof.
  unfold load_next_video.
  destruct (Nat.leb_spec (length (video_files t)) (index t)) as [|Hlt];
    [done|].
  by destruct (lookup_lt_is_Some_2 _ _ Hlt) as [file ->].
Qed.

(** Showing the next video changes neither the position nor what has
    been tagged. *)
Lemma load_next_video_keeps t :
  let t' := (load_next_video t).2 in
  (load_next_video t).1 = inr tt
  /\ directory t' = directory t /\ video_files t' = video_files t
  /\ index t' = index t /\ counter t' = counter t
  /\ date_input t' = date_input t
  /\ tagged (actions t') = tagged (actions t)
  /\ (forall a, a ∈ actions t' -> a ∈ actions t \/ touches_disk a = false)
  /\ current_file t'
     = if (length (video_files t) <=? index t)%nat then current_file t
       else video_files t !! index t.
Proof.
  cbn zeta. rewrite load_next_video_cases.
  destruct (Nat.leb_spec (length (video_files t)) (index t)) as [|Hlt].
  - cbn. unfold tagged. rewrite <-List.app_assoc, omap_app. cbn.
    rewrite List.app_nil_r. repeat split; try done.
    intros a [?|[Ha|Ha%list_elem_of_singleton]%elem_of_cons]%elem_of_app;
      subst; auto.
  - destruct (lookup_lt_is_Some_2 _ _ Hlt) as [file ->].
    cbn. unfold tagged. rewrite <-List.app_assoc, omap_app. cbn.
    rewrite List.app_nil_r. repeat split; try done.
    intros a [?|[Ha|Ha%list_elem_of_singleton]%elem_of_cons]%elem_of_app;
      subst; auto.
Qed.

(** One press of the button: either the tool stays where it is, or it
    has tagged the video in hand and moved on by one. *)
Lemma save_step D t :
  let t' := (save_date_and_rename D t).2 in
  directory t' = directory t /\ video_files t' = video_files t
  /\ ((index t' = index t /\ counter t' = counter t
       /\ current_file t' = current_file t
       /\ date_input t' = date_input t
       /\ tagged (actions t') = tagged (actions t))
      \/ (index t' = index t + 1 /\ counter t' = counter t + 1
          /\ date_input t' = ""
          /\ current_file t'
             = (if (length (video_files t) <=? index t + 1)%nat
                then current_file t
                else video_files t !! (index t + 1))
          /\ tagged (actions t')
             = tagged (actions t)
               ++ [Py.path_join (directory t)
                     (new_filename (date_input t) (counter t))])).
Proof.
  cbn zeta. unfold save_date_and_rename.
  destruct (strptime D _ _) as [e|date_obj].
  { destruct (isinstance e ValueError); cbn; unfold tagged;
      rewrite ?omap_app; cbn; rewrite ?List.app_nil_r; auto 10. }
  destruct (current_file t) as [file|] eqn:Hfile.
  2:{ cbn. unfold tagged. rewrite omap_app. cbn. rewrite List.app_nil_r.
      auto 10. }
  destruct (rename D file _) as [e|[]].
  { cbn. unfold tagged. rewrite !omap_app. cbn. rewrite !List.app_nil_r.
    auto 10. }
  destruct (timestamp_of D date_obj) as [e|ts].
  { cbn. unfold tagged. rewrite !omap_app. cbn. rewrite !List.app_nil_r.
    auto 10. }
  destruct (utime D _ ts ts) as [e|[]].
  { cbn. unfold tagged. rewrite !omap_app. cbn. rewrite !List.app_nil_r.
    auto 10. }
  match goal with
  | |- context [load_next_video ?t3] =>
      pose proof (load_next_video_keeps t3) as Hnext;
      destruct (load_next_video t3) as [[e|[]] t4]
  end; cbn zeta in Hnext; cbn [fst snd] in Hnext;
    destruct Hnext as (Hr & Hd & Hv & Hi & Hc & Hin & Ht & _ & Hcur);
    [discriminate|].
  cbn [snd]. cbn in Hd, Hv, Hi, Hc, Hin, Ht, Hcur.
  split; [done|]. split; [done|]. right.
  rewrite Hi, Hc, Hin, Ht, Hcur, Hfile. repeat split.
  unfold tagged. rewrite !omap_app. cbn. by rewrite !List.app_nil_r.
Qed.

(** Text after the last occurrence of a character is determined by the
    whole. *)
Lemma after_last_inj c P1 P2 t1 t2 :
  all (other_than c) t1 = true -> all (other_than c) t2 = true ->
  P1 +:+ String c t1 = P2 +:+ String c t2 -> t1 = t2.
Proof.
  assert (forall P t t', all (other_than c) t = true ->
            t <> P +:+ String c t') as Hno.
  { intros P t t' Ht ->. rewrite all_app in Ht. cbn in Ht.
    unfold other_than at 2 in Ht. rewrite Ascii.eqb_refl in Ht.
    by rewrite andb_false_r in Ht. }
  intros H1 H2. revert P2.
  induction P1 as [|d P1 IH]; intros [|d' P2]; push_app; intros [= H].
  - done.
  - subst. by destruct (Hno P2 _ t2 H1).
  - subst. by destruct (Hno P1 _ t1 H2).
  - subst. by apply (IH P2).
Qed.

Lemma digits_no_underscore s :
  all is_digit s = true -> all (other_than "_") s = true.
Proof.
  induction s as [|d s IH]; cbn; [done|].
  intros [Hd Hs]%andb_true_iff. rewrite IH by done.
  rewrite andb_true_r. unfold other_than.
  destruct (Ascii.eqb_spec d "_") as [->|]; [discriminate|done].
Qed.

(** The counter can be read off the end of a name. *)
Lemma counter_suffix_inj P1 P2 c1 c2 :
  P1 +:+ "_" +:+ format_d c1 +:+ ".mp4" = P2 +:+ "_" +:+ format_d c2 +:+ ".mp4" ->
  c1 = c2.
Proof.
  intros H. apply after_last_inj in H.
  - apply (app_span_inj is_digit) in H as [H _];
      [|apply format_d_digits..|done|done].
    rewrite <-(parse_format_d c1), <-(parse_format_d c2). by rewrite H.
  - rewrite all_app, digits_no_underscore by apply format_d_digits. done.
  - rewrite all_app, digits_no_underscore by apply format_d_digits. done.
Qed.

(** The path a video is renamed to ends in the counter. *)
Lemma new_path_suffix dir date_str c :
  exists P,
    Py.path_join dir (new_filename date_str c)
    = P +:+ "_" +:+ format_d c +:+ ".mp4".
Proof.
  unfold Py.path_join, new_filename. repeat case_match.
  - by eexists.
  - eexists. by rewrite <-app_assoc.
  - eexists. by rewrite <-!app_assoc.
Qed.

Lemma numbered_init D dir : numbered (init D dir).2.
Proof.
  unfold init.
  destruct (load_next_video_keeps
              (mkTagger dir (sorted (glob D (Py.path_join dir "*.mp4")))
                 0 0 None "" []))
    as (_ & _ & _ & Hi & Hc & _ & Ht & _).
  cbn [index counter actions] in Hi, Hc, Ht.
  unfold numbered. rewrite Hi, Hc, Ht. by repeat split.
Qed.

Lemma numbered_enter D text t : numbered t -> numbered (enter D text t).
Proof.
  intros (Hci & Hlen & Hnum). unfold enter.
  destruct (save_step D (mkTagger (directory t) (video_files t) (index t)
                           (counter t) (current_file t) text (actions t)))
    as (_ & _ & [(Hi & Hc & _ & _ & Ht) | (Hi & Hc & _ & _ & Ht)]);
    cbn [index counter actions directory date_input] in Hi, Hc, Ht;
    unfold numbered; rewrite Hi, Hc, Ht.
  - done.
  - rewrite List.length_app. cbn. repeat split; [lia..|].
    intros i p [Hold | [Hge Hnew]]%lookup_app_Some; [by apply Hnum|].
    apply list_lookup_singleton_Some in Hnew as [Hi0 <-].
    assert (i = counter t) as -> by lia. apply new_path_suffix.
Qed.

Lemma numbered_sitting D dir texts : numbered (sitting D dir texts).
Proof.
  unfold sitting. generalize (numbered_init D dir).
  generalize ((init D dir).2).
  induction texts as [|text texts IH]; intros t Ht; [done|].
  cbn [fold_left]. by apply IH, numbered_enter.
Qed.

(** X9. Through a whole sitting of the tagging tool - whatever is
    typed, whatever fails - the counter equals the index and the number
    of videos renamed and dated so far; the i-th of them, counting from
    0, was written to a name ending in [_i.mp4]; so no two of them were
    written to the same path. *)
Theorem sitting_numbers_videos D dir texts :
  let t := sitting D dir texts in
  counter t = index t
  /\ length (tagged (actions t)) = counter t
  /\ (forall i p,
        tagged (actions t) !! i = Some p ->
        ends_with ("_" +:+ format_d i +:+ ".mp4") p = true)
  /\ NoDup (tagged (actions t)).
Proof.
  destruct (numbered_sitting D dir texts) as (Hci & Hlen & Hnum).
  cbn zeta. repeat split; [done..| |].
  - intros i p (P & ->)%Hnum. apply ends_with_app.
  - apply NoDup_alt. intros i j p (P1 & ->)%Hnum (P2 & H)%Hnum.
    by apply counter_suffix_inj in H.
Qed.

Lemma sitting_numbers_videos_witness :
  ends_with "_1.mp4" "/videos/2021_06_15_1.mp4" = true.
Proof.
  destruct (sitting_numbers_videos desk "/videos"
              ["2021-06-15"; "junk"; "2020-01-01"; "2021-06-15"])
    as (_ & _ & Hends & _).
  apply (Hends 1 "/videos/2021_06_15_1.mp4").
  vm_compute. reflexivity.
Defined.

Example desk_sitting :
  tagged (actions (sitting desk "/videos"
                     ["2021-06-15"; "junk"; "2020-01-01"; "2021-06-15";
                      "2022-01-01"]))
  = ["/videos/2021_06_15_0.mp4"; "/videos/2021_06_15_1.mp4";
     "/videos/2022_01_01_2.mp4"].
Proof. vm_compute. reflexivity. Qed.

(** X10. A press of the save button that fails leaves the tool where it
    was - index, counter, video in hand and the text typed are
    untouched - and shows one error box.  For a text that is no date
    nothing is done to the disk.  A failure of the renaming is reported;
    a failure after it - the time cannot be computed or set - is
    reported too, and the renaming is not undone, while the tool goes on
    holding the old path. *)
Theorem failed_save_keeps_place D t :
  let date_str := date_input t in
  let new_path :=
    Py.path_join (directory t) (new_filename date_str (counter t)) in
  (forall e,
     strptime D date_str "%Y-%m-%d" = inl e ->
     isinstance e ValueError = true ->
     save_date_and_rename D t
     = (inr tt,
        act t (Critical "Error" "Invalid date format. Use YYYY-MM-DD.")))
  /\ (forall date_obj file e,
        strptime D date_str "%Y-%m-%d" = inr date_obj ->
        current_file t = Some file ->
        rename D file new_path = inl e ->
        save_date_and_rename D t
        = (inr tt,
           act (act t (Rename file new_path false))
             (Critical "Error"
                ("Failed to rename or update time: " +:+ exn_str e))))
  /\ (forall date_obj file e,
        strptime D date_str "%Y-%m-%d" = inr date_obj ->
        current_file t = Some file ->
        rename D file new_path = inr tt ->
        timestamp_of D date_obj = inl e ->
        save_date_and_rename D t
        = (inr tt,
           act (act t (Rename file new_path true))
             (Critical "Error"
                ("Failed to rename or update time: " +:+ exn_str e))))
  /\ (forall date_obj file ts e,
        strptime D date_str "%Y-%m-%d" = inr date_obj ->
        current_file t = Some file ->
        rename D file new_path = inr tt ->
        timestamp_of D date_obj = inr ts ->
        utime D new_path ts ts = inl e ->
        save_date_and_rename D t
        = (inr tt,
           act (act (act t (Rename file new_path true))
                  (Utime new_path ts ts false))
             (Critical "Error"
                ("Failed to rename or update time: " +:+ exn_str e))))
  /\ (forall t0 a,
        index (act t0 a) = index t0 /\ counter (act t0 a) = counter t0
        /\ current_file (act t0 a) = current_file t0
        /\ date_input (act t0 a) = date_input t0
        /\ actions (act t0 a) = actions t0 ++ [a]).
Proof.
  cbn zeta. unfold save_date_and_rename, failure_box. repeat split.
  - intros e -> Hcls. by rewrite Hcls.
  - intros date_obj file e -> -> Hren. by rewrite Hren.
  - intros date_obj file e -> -> Hren Hts. by rewrite Hren, Hts.
  - intros date_obj file ts e -> -> Hren Hts Hut. by rewrite Hren, Hts, Hut.
Qed.

Lemma failed_save_keeps_place_witness :
  let t := mkTagger "/videos" ["/videos/a.mp4"] 0 0 (Some "/videos/a.mp4")
             "2020-01-01" [] in
  save_date_and_rename desk t
  = (inr tt,
     act (act (act t (Rename "/videos/a.mp4" "/videos/2020_01_01_0.mp4" true))
            (Utime "/videos/2020_01_01_0.mp4" 20200101%Z 20200101%Z false))
       (Critical "Error"
          "Failed to rename or update time: [Errno 1] Operation not permitted")).
Proof.
  cbn zeta.
  destruct (failed_save_keeps_place desk
              (mkTagger "/videos" ["/videos/a.mp4"] 0 0
                 (Some "/videos/a.mp4") "2020-01-01" []))
    as (_ & _ & _ & Hutime & _).
  refine (Hutime (mkDatetime 2020 1 1 0 0 0 0 None) "/videos/a.mp4"
            20200101%Z (Exn OSError "[Errno 1] Operation not permitted")
            _ _ _ _ _);
    vm_compute; reflexivity.
Defined.

(** X11. Opened on a directory without videos the tool says at once
    that it is done and closes; the video in hand is never set, so
    whatever is typed and saved afterwards, nothing is renamed and no
    time is set. *)
Theorem empty_directory_touches_nothing D dir texts :
  glob D (Py.path_join dir "*.mp4") = [] ->
  init D dir
  = (inr tt,
     mkTagger dir [] 0 0 None ""
       [Information "Done" "All videos processed."; Close])
  /\ current_file (sitting D dir texts) = None
  /\ (forall a, a ∈ actions (sitting D dir texts) -> touches_disk a = false).
Proof.
  intros Hglob.
  assert (init D dir
          = (inr tt,
             mkTagger dir [] 0 0 None ""
               [Information "Done" "All videos processed."; Close])) as Hinit
    by (unfold init; by rewrite Hglob).
  split; [done|].
  unfold sitting. rewrite Hinit. cbn [snd].
  assert (forall t,
    current_file t = None ->
    (forall a, a ∈ actions t -> touches_disk a = false) ->
    current_file (fold_left (fun t text => enter D text t) texts t) = None
    /\ (forall a,
          a ∈ actions (fold_left (fun t text => enter D text t) texts t) ->
          touches_disk a = false)) as Hfold.
  { induction texts as [|text texts IH]; intros t Hcur Hact; [done|].
    cbn [fold_left]. apply IH.
    - unfold enter, save_date_and_rename. cbn [date_input current_file].
      rewrite Hcur. by repeat case_match.
    - unfold enter, save_date_and_rename. cbn [date_input current_file].
      rewrite Hcur.
      repeat case_match; cbn [snd act actions]; try done;
        intros a [?|Ha%list_elem_of_singleton]%elem_of_app; subst; auto. }
  apply Hfold; [done|].
  intros a [->|[->|[]%elem_of_nil]%elem_of_cons]%elem_of_cons; done.
Qed.

Lemma empty_directory_touches_nothing_witness :
  current_file (sitting desk "/empty" ["2021-06-15"; "junk"]) = None
  /\ (forall a,
        a ∈ actions (sitting desk "/empty" ["2021-06-15"; "junk"]) ->
        touches_disk a = false).
Proof.
  exact (proj2 (empty_directory_touches_nothing desk "/empty"
                  ["2021-06-15"; "junk"] eq_refl)).
Defined.

Lemma insert_sorted_perm x l : insert_sorted x l ≡ₚ x :: l.
Proof.
  induction l as [|y l IH]; cbn; [done|].
  destruct (String.leb x y); [done|]. by rewrite IH, Permutation_swap.
Qed.

Lemma sorted_perm l : sorted l ≡ₚ l.
Proof.
  induction l as [|x l IH]; cbn; [done|].
  by rewrite insert_sorted_perm, IH.
Qed.

Lemma insert_sorted_Sorted x l :
  Sorted path_le l -> Sorted path_le (insert_sorted x l).
Proof.
  induction 1 as [|y l Hl IH Hhd]; cbn.
  - by repeat constructor.
  - destruct (String.leb x y) eqn:Hxy.
    + by repeat constructor.
    + constructor; [done|].
      assert (path_le y x) as Hyx
        by (unfold path_le; destruct (String.leb_total x y); congruence).
      destruct Hhd as [|z l' Hyz]; cbn; [by constructor|].
      destruct (String.leb x z); by constructor.
Qed.

Lemma sorted_Sorted l : Sorted path_le (sorted l).
Proof.
  induction l as [|x l IH]; cbn; [constructor|].
  by apply insert_sorted_Sorted.
Qed.

(** X12. The tool goes through the videos of the directory in ascending
    order of their paths, every one of them once: the list it works on
    is the listing of the directory put in order, it never changes, and
    as long as the index is within the list the video in hand is the
    one at the index. *)
Theorem videos_in_ascending_order D dir texts :
  let t := sitting D dir texts in
  let listing := glob D (Py.path_join dir "*.mp4") in
  video_files t ≡ₚ listing
  /\ Sorted path_le (video_files t)
  /\ (index t < length (video_files t) ->
      current_file t = video_files t !! index t).
Proof.
  cbn zeta.
  assert (video_files (sitting D dir texts)
          = sorted (glob D (Py.path_join dir "*.mp4"))
          /\ (index (sitting D dir texts)
              < length (video_files (sitting D dir texts)) ->
              current_file (sitting D dir texts)
              = video_files (sitting D dir texts)
                  !! index (sitting D dir texts))) as [Hfiles Hcur].
  { unfold sitting.
    assert (video_files (init D dir).2
            = sorted (glob D (Py.path_join dir "*.mp4"))
            /\ (index (init D dir).2 < length (video_files (init D dir).2) ->
                current_file (init D dir).2
                = video_files (init D dir).2 !! index (init D dir).2))
      as Hinit.
    { unfold init.
      destruct (load_next_video_keeps
                  (mkTagger dir (sorted (glob D (Py.path_join dir "*.mp4")))
                     0 0 None "" []))
        as (_ & _ & Hv & Hi & _ & _ & _ & _ & Hc).
      cbn [video_files index current_file] in Hv, Hi, Hc.
      rewrite Hv, Hi, Hc. split; [done|]. intros Hlt.
      by rewrite (proj2 (Nat.leb_gt _ _)) by done. }
    revert Hinit. generalize ((init D dir).2).
    induction texts as [|text texts IH]; intros t Ht; [done|].
    cbn [fold_left]. apply IH. destruct Ht as [Hfiles Hcur].
    unfold enter.
    destruct (save_step D (mkTagger (directory t) (video_files t) (index t)
                             (counter t) (current_file t) text (actions t)))
      as (_ & Hv & [(Hi & _ & Hc & _) | (Hi & _ & _ & Hc & _)]);
      cbn [video_files index current_file] in Hv, Hi, Hc;
      rewrite Hv, Hi, Hc; (split; [done|]).
    - done.
    - intros Hlt. by rewrite (proj2 (Nat.leb_gt _ _)) by lia. }
  split; [|split; [|done]].
  - rewrite Hfiles. apply sorted_perm.
  - rewrite Hfiles. apply sorted_Sorted.
Qed.

Lemma videos_in_ascending_order_witness :
  current_file (sitting desk "/videos" ["2021-06-15"])
  = video_files (sitting desk "/videos" ["2021-06-15"])
      !! index (sitting desk "/videos" ["2021-06-15"]).
Proof.
  destruct (videos_in_ascending_order desk "/videos" ["2021-06-15"])
    as (_ & _ & Hcur).
  apply Hcur. vm_compute. lia.
Defined.

Example desk_order :
  video_files (sitting desk "/videos" ["2021-06-15"])
  = ["/videos/a.mp4"; "/videos/b.mp4"; "/videos/c.mp4"]
  /\ current_file (sitting desk "/videos" ["2021-06-15"])
     = Some "/videos/b.mp4".
Proof. vm_compute. by split. Qed.

End TaggerFacts.
